(** * cucim.core.operations.intensity.scaling

    A shallow embedding of [scale_intensity_range]
    (python/cucim/src/cucim/core/operations/intensity/scaling.py) and the
    properties of its specification.

    Python floats are IEEE-754 binary64 values and the working buffers of
    the kernel hold binary32 values; both are modelled with the executable
    IEEE-754 specification of the Standard Library ([spec_float], round to
    nearest even, one NaN).  Arrays live in a heap of objects addressed by
    handles, so that aliasing and in-place writes are visible. *)

From Stdlib Require Import ZArith Bool List Lia.
From Stdlib Require Import Floats.SpecFloat.
From stdpp Require Import gmap strings list.

Local Open Scope Z_scope.

(** ** Floating-point formats *)

Module IEEE.

Section Format.
Variables prec emax : Z.

(** The value of the format nearest to an integer. *)
Definition of_Z (z : Z) : spec_float := binary_normalize prec emax z 0 false.

(** Conversion of a value of any format to this one: exact when the
    value is representable, rounded (to an infinity on overflow, to a
    signed zero on underflow) otherwise. *)
Definition round (f : spec_float) : spec_float :=
  match f with
  | S754_finite s m e => binary_round prec emax s m e
  | _ => f
  end.
End Format.

Definition is_nan (f : spec_float) : bool :=
  match f with S754_nan => true | _ => false end.

Definition is_zero (f : spec_float) : bool :=
  match f with S754_zero _ => true | _ => false end.

(** Truncation toward zero of a finite value; [None] for NaN and the
    infinities. *)
Definition trunc (f : spec_float) : option Z :=
  match f with
  | S754_zero _ => Some 0
  | S754_finite s m e =>
      let a := match e with
               | Zneg k => Z.shiftr (Zpos m) (Zpos k)
               | _ => Z.shiftl (Zpos m) e
               end in
      Some (if s then - a else a)
  | _ => None
  end.

(** Zeros and finite non-zero values. *)
Definition is_finite (f : spec_float) : bool :=
  match f with S754_zero _ | S754_finite _ _ _ => true | _ => false end.

(** The smaller and the larger of two values that are not NaN. *)
Definition min (a b : spec_float) : spec_float := if SFleb a b then a else b.


End IEEE.

(** Python's [float]: binary64. *)
Module Float.
Definition prec : Z := 53.
Definition emax : Z := 1024.
Definition add := SFadd prec emax.
Definition sub := SFsub prec emax.
Definition mul := SFmul prec emax.
Definition div := SFdiv prec emax.
Definition eqb := SFeqb.
Definition of_Z := IEEE.of_Z prec emax.
Definition widen := IEEE.round prec emax.
Definition valid := valid_binary prec emax.
Definition zero : spec_float := S754_zero false.
Definition one : spec_float := Eval vm_compute in of_Z 1.
(** [float('inf')] and [float('-inf')] *)
Definition inf : spec_float := S754_infinity false.
Definition neg_inf : spec_float := S754_infinity true.
End Float.

(** numpy's [float32], the working type of the kernel: binary32. *)
Module Float32.
Definition prec : Z := 24.
Definition emax : Z := 128.
Definition sub := SFsub prec emax.
Definition mul := SFmul prec emax.
Definition ltb := SFltb.
Definition of_Z := IEEE.of_Z prec emax.
(** [np.float32(x)] *)
Definition np_float32 := IEEE.round prec emax.
Definition valid := valid_binary prec emax.
Definition zero : spec_float := S754_zero false.
Definition one : spec_float := Eval vm_compute in of_Z 1.
End Float32.

(** ** Element types and element values *)

Inductive element_type :=
| bool_ | int8 | int16 | int32 | int64
| uint8 | uint16 | uint32 | uint64
| float16 | float32 | float64
| complex64 | complex128.

#[global] Instance element_type_eq_dec : EqDecision element_type.
Proof. solve_decision. Defined.

Inductive scalar :=
| SBool (b : bool)
| SInt (z : Z)
| SFloat (f : spec_float)
| SComplex (re im : spec_float).

(** What kind of value an element type stores. *)
Inductive type_kind :=
| KBool
| KInt (signed : bool) (bits : Z)
| KFloat (prec emax : Z)
| KComplex (prec emax : Z).

Definition kind_of (t : element_type) : type_kind :=
  match t with
  | bool_ => KBool
  | int8 => KInt true 8 | int16 => KInt true 16
  | int32 => KInt true 32 | int64 => KInt true 64
  | uint8 => KInt false 8 | uint16 => KInt false 16
  | uint32 => KInt false 32 | uint64 => KInt false 64
  | float16 => KFloat 11 16
  | float32 => KFloat Float32.prec Float32.emax
  | float64 => KFloat Float.prec Float.emax
  | complex64 => KComplex Float32.prec Float32.emax
  | complex128 => KComplex Float.prec Float.emax
  end.

(** [cupy.can_cast(t, cupy.float32)] with the default (safe) casting rule:
    the types every value of which a binary32 holds exactly. *)
Definition can_cast_float32 (t : element_type) : bool :=
  match t with
  | bool_ | int8 | int16 | uint8 | uint16 | float16 | float32 => true
  | int32 | int64 | uint32 | uint64 | float64 | complex64 | complex128 => false
  end.

Definition int_min (signed : bool) (bits : Z) : Z :=
  if signed then - 2 ^ (bits - 1) else 0.
Definition int_max (signed : bool) (bits : Z) : Z :=
  if signed then 2 ^ (bits - 1) - 1 else 2 ^ bits - 1.

(** Two's complement wrap-around of an integer to a width. *)
Definition wrap (signed : bool) (bits : Z) (z : Z) : Z :=
  if signed then (z + 2 ^ (bits - 1)) mod 2 ^ bits - 2 ^ (bits - 1)
  else z mod 2 ^ bits.

(** [np.int32(n)] of a numpy integer *)
Definition np_int32 (z : Z) : Z := wrap true 32 z.

(** ** The accelerator and the array library

    What the sources leave to the platform is gathered in one record: which
    launch geometries the driver accepts, what freshly allocated device
    memory contains, and what a float-to-integer cast yields for a value the
    target type cannot hold (the array library documents it as
    platform-defined). *)

Record accelerator := {
  accepts_launch : Z * Z * Z -> Z * Z * Z -> bool;
  uninitialised : element_type -> nat -> scalar;
  cast_undefined : element_type -> spec_float -> Z
}.

Section Casts.
Variable acc : accelerator.

Definition as_float (prec emax : Z) (v : scalar) : spec_float :=
  match v with
  | SBool b => IEEE.of_Z prec emax (if b then 1 else 0)
  | SInt z => IEEE.of_Z prec emax z
  | SFloat f => IEEE.round prec emax f
  | SComplex re _ => IEEE.round prec emax re
  end.

Definition float_to_int (t : element_type) (signed : bool) (bits : Z)
    (f : spec_float) : Z :=
  match IEEE.trunc f with
  | Some z =>
      if (int_min signed bits <=? z) && (z <=? int_max signed bits) then z
      else cast_undefined acc t f
  | None => cast_undefined acc t f
  end.

Definition as_int (t : element_type) (signed : bool) (bits : Z)
    (v : scalar) : Z :=
  match v with
  | SBool b => if b then 1 else 0
  | SInt z => wrap signed bits z
  | SFloat f => float_to_int t signed bits f
  | SComplex re _ => float_to_int t signed bits re
  end.

Definition as_bool (v : scalar) : bool :=
  match v with
  | SBool b => b
  | SInt z => negb (z =? 0)
  | SFloat f => negb (IEEE.is_zero f)
  | SComplex re im => negb (IEEE.is_zero re && IEEE.is_zero im)
  end.

(** The conversion of one element by [astype] / [asarray(dtype=...)]. *)
Definition astype_scalar (t : element_type) (v : scalar) : scalar :=
  match kind_of t with
  | KBool => SBool (as_bool v)
  | KInt s b => SInt (as_int t s b v)
  | KFloat p e => SFloat (as_float p e v)
  | KComplex p e =>
      SComplex (as_float p e v)
        (match v with
         | SComplex _ im => IEEE.round p e im
         | _ => S754_zero false
         end)
  end.
End Casts.

(** How the kernel reads an element of a binary32 buffer. *)
Definition float_of (v : scalar) : spec_float :=
  as_float Float32.prec Float32.emax v.

(** ** Arrays, the heap and the effects of a call *)

Inductive array_class := numpy_ndarray | cupy_ndarray.

#[global] Instance array_class_eq_dec : EqDecision array_class.
Proof. solve_decision. Defined.

Record ndarray := {
  cls : array_class;
  dtype : element_type;
  shape : list N;
  c_contiguous : bool;
  data : list scalar          (* the elements in C (row-major) order *)
}.

Definition handle := positive.

(** The values [img] can be bound to: a reference to an array object, or
    anything else. *)
Inductive pyobject :=
| PyRef (h : handle)
| PyFloat (f : spec_float)
| PyInt (z : Z)
| PyStr (s : string)
| PyNone.

Inductive exn :=
| TypeError (msg : string)
| ValueError (msg : string)
| AttributeError (msg : string)
| CUDADriverError (msg : string).

Definition str (e : exn) : string :=
  match e with
  | TypeError m | ValueError m | AttributeError m | CUDADriverError m => m
  end.

(** One request to launch the kernel: grid, block and the scalar arguments. *)
Record launch := {
  grid : Z * Z * Z;
  block : Z * Z * Z;
  arg_in : handle;
  arg_out : handle;
  arg_x : spec_float;
  arg_y : spec_float;
  arg_b_min : spec_float;
  arg_b_max : spec_float;
  arg_total_size : Z
}.

Record world := {
  heap : gmap handle ndarray;
  launches : list launch;     (* oldest first *)
  logged : list string        (* records of [_logger.error], oldest first *)
}.

Inductive outcome (A : Type) :=
| Return (a : A)
| Raise (e : exn).
Arguments Return {A} a.
Arguments Raise {A} e.

Definition M (A : Type) : Type := world -> outcome A * world.

Definition ret {A} (a : A) : M A := fun w => (Return a, w).
Definition raise {A} (e : exn) : M A := fun w => (Raise e, w).
Definition bind {A B} (m : M A) (k : A -> M B) : M B :=
  fun w => match m w with
           | (Return a, w') => k a w'
           | (Raise e, w') => (Raise e, w')
           end.

Declare Scope py_scope.
Delimit Scope py_scope with py.
Notation "'let*' x ':=' m 'in' k" := (bind m (fun x => k))
  (at level 10, x name, m at level 100, k at level 200) : py_scope.
Notation "'let*' ' p ':=' m 'in' k" := (bind m (fun p => k))
  (at level 10, p pattern, m at level 100, k at level 200) : py_scope.
Notation "'do' m 'in' k" := (bind m (fun _ => k))
  (at level 10, m at level 100, k at level 200) : py_scope.
Local Open Scope py_scope.

Definition with_heap (f : gmap handle ndarray -> gmap handle ndarray)
    (w : world) : world :=
  {| heap := f (heap w); launches := launches w; logged := logged w |}.

(** Allocation of a new array object. *)
Definition new (a : ndarray) : M handle :=
  fun w => let h := fresh (dom (heap w)) in
           (Return h, with_heap (insert h a) w).

Definition blank : ndarray :=
  {| cls := cupy_ndarray; dtype := float32; shape := [];
     c_contiguous := true; data := [] |}.

(** Reading the object behind a reference. *)
Definition deref (h : handle) : M ndarray :=
  fun w => (Return (default blank (heap w !! h)), w).

(** [type(img)] as far as [isinstance] needs it: the array and its class,
    or nothing for a value that is not an array. *)
Definition array_of (img : pyobject) : M (option (handle * array_class)) :=
  fun w => (Return match img with
                   | PyRef h => (fun a => (h, cls a)) <$> heap w !! h
                   | _ => None
                   end, w).

(** [np.prod(sh)] *)
Definition np_prod (sh : list N) : Z := fold_right Z.mul 1 (map Z.of_N sh).

(** [int(f)] of a float: truncation toward zero.  (Python raises for an
    infinity and for NaN; the float given to it by the operation is
    finite for the element count of every array that can be allocated,
    and 0 stands for the value that is never asked for.) *)
Definition py_int (f : spec_float) : Z := default 0 (IEEE.trunc f).

(** ** The kernel *)

(** Modelled from the spec: the compiled kernel [scaleVolume]; its source
    (kernel/cuda_kernel_source.py) is not among the sources.  The spec gives
    it as: consumes (input buffer, output buffer, x, y, lower, upper, total
    element count as a 32-bit integer) and writes, for every linear index i
    in [0, total_size), out[i] = clamp(in[i]*x - y, lower, upper), where
    clamp constrains a value to a closed interval, replacing it with the
    nearest bound if outside; the kernel itself bounds-checks the tail
    block.  The arithmetic is that of the working type, binary32.

    The spec states the clamp law for all inputs, and says that with the
    bounds (-inf, +inf) no clamping is applied.  So NaN, which lies in no
    interval, is replaced by a bound whenever a bound is in force (the
    spec does not say by which one: the lower one is taken here), and is
    left as it is between -inf and +inf, like every other value. *)
Definition unbounded (lower upper : spec_float) : bool :=
  match lower, upper with
  | S754_infinity true, S754_infinity false => true
  | _, _ => false
  end.

Definition clamp (v lower upper : spec_float) : spec_float :=
  if Float32.ltb v lower then lower
  else if Float32.ltb upper v then upper
  else if IEEE.is_nan v && negb (unbounded lower upper) then lower
  else v.

Definition scale_elem (x y lower upper v : spec_float) : spec_float :=
  clamp (Float32.sub (Float32.mul v x) y) lower upper.

(** One thread of the kernel. *)
Definition scaleVolume (input : list scalar) (x y lower upper : spec_float)
    (total_size : Z) (blockIdx blockDim threadIdx : Z)
    (output : list scalar) : list scalar :=
  let i := blockIdx * blockDim + threadIdx in
  if i <? total_size then
    match input !! Z.to_nat i with
    | Some v =>
        <[Z.to_nat i := SFloat (scale_elem x y lower upper (float_of v))]> output
    | None => output
    end
  else output.

(** A one-dimensional launch: every thread of every block runs once; no
    two threads write the same element, so the order does not matter. *)
Definition run_grid (gridx blockx : Z)
    (thread : Z -> Z -> Z -> list scalar -> list scalar)
    (output : list scalar) : list scalar :=
  foldl (fun out b =>
           foldl (fun out t => thread b blockx t out) out (seqZ 0 blockx))
        output (seqZ 0 gridx).

(** ** The operation *)

(** [_logger.error("[cucim] " + str(e), exc_info=True)] *)
Definition log_error (w : world) (e : exn) : world :=
  {| heap := heap w; launches := launches w;
     logged := logged w ++ ["[cucim] " +:+ str e] |}.

Section Scaling.
Variable acc : accelerator.

(** [cupy.asarray(a, dtype=t, order='C')] of a host array: a new
    contiguous device array of the requested type. *)
Definition cupy_asarray (h : handle) (t : element_type) : M handle :=
  let* a := deref h in
  new {| cls := cupy_ndarray; dtype := t; shape := shape a;
         c_contiguous := true;
         data := map (astype_scalar acc t) (data a) |}.

(** [cupy.ascontiguousarray(a)]: the array itself when it is contiguous,
    a contiguous copy otherwise. *)
Definition cupy_ascontiguousarray (h : handle) : M handle :=
  let* a := deref h in
  if c_contiguous a then ret h
  else new {| cls := cls a; dtype := dtype a; shape := shape a;
              c_contiguous := true; data := data a |}.

(** [a.astype(t)]: always a new array. *)
Definition astype (h : handle) (t : element_type) : M handle :=
  let* a := deref h in
  new {| cls := cls a; dtype := t; shape := shape a;
         c_contiguous := c_contiguous a;
         data := map (astype_scalar acc t) (data a) |}.

(** [cupy.empty(sh, dtype=t)] *)
Definition cupy_empty (sh : list N) (t : element_type) : M handle :=
  new {| cls := cupy_ndarray; dtype := t; shape := sh;
         c_contiguous := true;
         data := map (uninitialised acc t) (seq 0 (Z.to_nat (np_prod sh))) |}.

(** [cupy.asnumpy(a)]: a new host array. *)
Definition cupy_asnumpy (h : handle) : M handle :=
  let* a := deref h in
  new {| cls := numpy_ndarray; dtype := dtype a; shape := shape a;
         c_contiguous := c_contiguous a; data := data a |}.

(** [img.dtype], [img.shape]: the attributes of the object [img] is. *)
Definition attr (img : pyobject) : M ndarray :=
  match img with
  | PyRef h => deref h
  | _ => raise (AttributeError "object has no attribute")
  end.

(** [scale(grid, block, args)]: the launch is requested, the driver
    accepts the geometry or not, and the threads write the output
    buffer in place. *)
Definition scale (g b : Z * Z * Z)
    (args : handle * handle * spec_float * spec_float * spec_float
            * spec_float * Z) : M unit :=
  let '(inp, out, x, y, lower, upper, n) := args in
  fun w =>
    let w := {| heap := heap w;
                launches := launches w ++
                  [{| grid := g; block := b; arg_in := inp; arg_out := out;
                      arg_x := x; arg_y := y; arg_b_min := lower;
                      arg_b_max := upper; arg_total_size := n |}];
                logged := logged w |} in
    if accepts_launch acc g b then
      match heap w !! out with
      | Some o =>
          let input := data (default blank (heap w !! inp)) in
          let written :=
            run_grid (fst (fst g)) (fst (fst b))
              (scaleVolume input x y lower upper n) (data o) in
          (Return (),
           with_heap (insert out
             {| cls := cls o; dtype := dtype o; shape := shape o;
                c_contiguous := c_contiguous o; data := written |}) w)
      | None => (Return (), w)
      end
    else (Raise (CUDADriverError "CUDA_ERROR_INVALID_VALUE: invalid argument"), w).

(** [try: ... except Exception as e: _logger.error(...); raise] *)
Definition logging_errors {A} (m : M A) : M A :=
  fun w => match m w with
           | (Raise e, w') => (Raise e, log_error w' e)
           | r => r
           end.

(** [(total_size - 1) / blockx + 1] is numpy's true division of a 64-bit
    integer by a Python int, followed by a float sum: the operands are
    converted to binary64, and the quotient and the sum are binary64
    values, rounded to nearest even. *)
Definition scale_intensity_range (img : pyobject)
    (b_max b_min a_max a_min : spec_float) (clip : bool) : M handle :=
  logging_errors (
    if Float.eqb (Float.sub a_max a_min) Float.zero then
      raise (ValueError "Original intensity range min and max are same")
    else
    let* img_t := array_of img in
    let* '(to_cupy, cupy_img) :=
      match img_t with
      | Some (h, numpy_ndarray) =>
          let* c := cupy_asarray h float32 in ret (true, c)
      | None =>
          raise (TypeError "img must be a cupy.ndarray or numpy.ndarray")
      | Some (h, cupy_ndarray) =>
          let* c := cupy_ascontiguousarray h in ret (false, c)
      end in
    let* c := deref cupy_img in
    let* cupy_img :=
      if bool_decide (dtype c ≠ float32) then
        let* i := attr img in
        if negb (can_cast_float32 (dtype i)) then
          raise (ValueError
            "Cannot safely cast type {cupy_img.dtype.name} to                     'float32'")
        else astype cupy_img float32
      else ret cupy_img in
    let x := Float.div (Float.sub b_max b_min) (Float.sub a_max a_min) in
    let y := Float.sub (Float.mul a_min x) b_min in
    let b_max := if negb clip then Float.inf else b_max in
    let b_min := if negb clip then Float.neg_inf else b_min in
    let* i := attr img in
    let sh := shape i in
    let total_size := np_prod sh in
    let blockx := 128 in
    let gridx :=
      py_int (Float.add
                (Float.div (Float.of_Z (total_size - 1)) (Float.of_Z blockx))
                (Float.of_Z 1)) in
    let* i := attr img in
    let* c := deref cupy_img in
    let* result := cupy_empty (shape i) (dtype c) in
    do scale (gridx, 1, 1) (blockx, 1, 1)
         (cupy_img, result, Float32.np_float32 x, Float32.np_float32 y,
          Float32.np_float32 b_min, Float32.np_float32 b_max,
          np_int32 total_size) in
    let* i := attr img in
    let* result :=
      if bool_decide (dtype i ≠ float32) then astype result (dtype i)
      else ret result in
    let* result :=
      if to_cupy then cupy_asnumpy result else ret result in
    ret result).
End Scaling.

(** The errors of the operation. *)
Definition same_range_error : exn :=
  ValueError "Original intensity range min and max are same".
Definition not_an_array_error : exn :=
  TypeError "img must be a cupy.ndarray or numpy.ndarray".
Definition unsafe_cast_error : exn :=
  ValueError
    "Cannot safely cast type {cupy_img.dtype.name} to                     'float32'".

(** The array a value refers to in a world, if it is one. *)
Definition refers_to_array (w : world) (img : pyobject)
    : option (handle * ndarray) :=
  match img with
  | PyRef h => (fun a => (h, a)) <$> heap w !! h
  | _ => None
  end.

(** ** What one call computes

    The pieces of a call on an array, as functions of the input array and
    the parameters; [scale_intensity_range_array] below shows that the
    operation computes exactly these. *)

(** The grid width the operation requests for a shape. *)
Definition gridx_of (sh : list N) : Z :=
  py_int (Float.add
            (Float.div (Float.of_Z (np_prod sh - 1)) (Float.of_Z 128))
            (Float.of_Z 1)).

Section Pieces.
Variable acc : accelerator.

(** The contents of the binary32 buffer handed to the kernel: the input
    itself when it is a device array of binary32 values, its conversion
    otherwise. *)
Definition working_data (a : ndarray) : list scalar :=
  if bool_decide (cls a = cupy_ndarray ∧ dtype a = float32) then data a
  else map (astype_scalar acc float32) (data a).

(** The launch request. *)
Definition request (a : ndarray) (inp out : handle)
    (b_max b_min a_max a_min : spec_float) (clip : bool) : launch :=
  let x := Float.div (Float.sub b_max b_min) (Float.sub a_max a_min) in
  let y := Float.sub (Float.mul a_min x) b_min in
  {| grid := (gridx_of (shape a), 1, 1);
     block := (128, 1, 1);
     arg_in := inp; arg_out := out;
     arg_x := Float32.np_float32 x;
     arg_y := Float32.np_float32 y;
     arg_b_min :=
       Float32.np_float32 (if negb clip then Float.neg_inf else b_min);
     arg_b_max :=
       Float32.np_float32 (if negb clip then Float.inf else b_max);
     arg_total_size := np_int32 (np_prod (shape a)) |}.

(** The output buffer after the launch [l]. *)
Definition kernel_output (a : ndarray) (l : launch) : list scalar :=
  run_grid (fst (fst (grid l))) (fst (fst (block l)))
    (scaleVolume (working_data a) (arg_x l) (arg_y l) (arg_b_min l)
       (arg_b_max l) (arg_total_size l))
    (map (uninitialised acc float32)
       (seq 0 (Z.to_nat (np_prod (shape a))))).

(** The contents of the returned array. *)
Definition returned_data (a : ndarray) (l : launch) : list scalar :=
  if bool_decide (dtype a ≠ float32)
  then map (astype_scalar acc (dtype a)) (kernel_output a l)
  else kernel_output a l.

(** What a call on the array [a] behind the handle [h] leaves behind, when
    the range is not degenerate and the element type is accepted: the
    working buffer [inp], the output buffer [out], one launch request, and
    either the returned array or the driver's refusal of the geometry. *)
Definition on_array (w : world) (h : handle) (a : ndarray)
    (b_max b_min a_max a_min : spec_float) (clip : bool)
    (r : outcome handle) (w' : world) : Prop :=
  ∃ inp out,
    let l := request a inp out b_max b_min a_max a_min clip in
    heap w ⊆ heap w' ∧
    heap w !! out = None ∧
    (inp = h ∨ heap w !! inp = None) ∧
    (∃ c, heap w' !! inp = Some c ∧ cls c = cupy_ndarray ∧
          dtype c = float32 ∧ shape c = shape a ∧
          data c = working_data a) ∧
    launches w' = launches w ++ [l] ∧
    if accepts_launch acc (grid l) (block l) then
      ∃ res, r = Return res ∧ heap w !! res = None ∧
        heap w' !! out =
          Some {| cls := cupy_ndarray; dtype := float32; shape := shape a;
                  c_contiguous := true; data := kernel_output a l |} ∧
        heap w' !! res =
          Some {| cls := cls a; dtype := dtype a; shape := shape a;
                  c_contiguous := true; data := returned_data a l |} ∧
        logged w' = logged w
    else
      ∃ msg, r = Raise (CUDADriverError msg) ∧
        logged w' = logged w ++ ["[cucim] " +:+ msg].
End Pieces.

(** ** The state of the output buffer during a launch *)

(** What a thread writes for the input element [v]. *)
Definition written (x y lower upper : spec_float) (v : scalar) : scalar :=
  SFloat (scale_elem x y lower upper (float_of v)).

(** The output buffer once the threads of global index below [k] have
    run: the elements below [k] and below the element count are written,
    the others are as they were in [out0]. *)
Definition done_upto (input : list scalar) (x y lower upper : spec_float)
    (n : Z) (out0 : list scalar) (k : Z) (out : list scalar) : Prop :=
  length out = length out0 ∧
  forall i : nat,
    out !! i =
      if decide (Z.of_nat i < Z.min k n)
      then written x y lower upper <$> input !! i
      else out0 !! i.

(** ** Well-formed arrays *)

(** An array holds as many elements as its shape says. *)
Definition well_formed (a : ndarray) : Prop :=
  length (data a) = Z.to_nat (np_prod (shape a)).

(** [well_typed t v]: the element [v] is a value of the element type
    [t]. *)
Definition well_typed (t : element_type) (v : scalar) : bool :=
  match kind_of t, v with
  | KBool, SBool _ => true
  | KInt s b, SInt z => (int_min s b <=? z) && (z <=? int_max s b)
  | KFloat p e, SFloat f => valid_binary p e f
  | KComplex p e, SComplex re im => valid_binary p e re && valid_binary p e im
  | _, _ => false
  end.

(** ** A small program logic for [M]

    [wp m w Q]: running [m] in the world [w] ends in an outcome and a world
    that satisfy [Q]. *)
Definition wp {A} (m : M A) (w : world)
    (Q : outcome A -> world -> Prop) : Prop :=
  Q (m w).1 (m w).2.


(** ** Two accelerators and some inputs, for examples

    [strict] applies the driver's rule to the requested geometry: every
    dimension of the grid and of the block is at least 1.  [lenient] is a
    launch wrapper that raises every dimension to at least 1 before the
    driver sees it, and so accepts every request.  Both saturate
    out-of-range float-to-integer casts and hand out NaN-filled memory. *)

Definition saturate (t : element_type) (f : spec_float) : Z :=
  match kind_of t, f with
  | KInt s b, S754_finite neg _ _ | KInt s b, S754_infinity neg =>
      if neg then int_min s b else int_max s b
  | _, _ => 0
  end.

Definition strict : accelerator :=
  {| accepts_launch := fun g b =>
       let '(gx, gy, gz) := g in
       let '(bx, by_, bz) := b in
       forallb (Z.leb 1) [gx; gy; gz; bx; by_; bz];
     uninitialised := fun _ _ => SFloat S754_nan;
     cast_undefined := saturate |}.

Definition lenient : accelerator :=
  {| accepts_launch := fun _ _ => true;
     uninitialised := fun _ _ => SFloat S754_nan;
     cast_undefined := saturate |}.

(** A world whose only object is the array [a], behind the handle 1. *)
Definition world_of (a : ndarray) : world :=
  {| heap := {[ 1%positive := a ]}; launches := []; logged := [] |}.

Definition img : pyobject := PyRef 1%positive.

Definition array (c : array_class) (t : element_type) (sh : list N)
    (elems : list scalar) : ndarray :=
  {| cls := c; dtype := t; shape := sh; c_contiguous := true; data := elems |}.

(** A device array of three binary32 values: 0.0, 1.0, 2.0. *)
Definition ramp32 : ndarray :=
  array cupy_ndarray float32 [3%N]
    (map (fun z => SFloat (Float32.of_Z z)) [0; 1; 2]).

(** The 8-bit image of the spec's scenario, on the host. *)
Definition image8 : ndarray :=
  array numpy_ndarray uint8 [3%N] [SInt 0; SInt 128; SInt 255].

(** A host array of binary64 values. *)
Definition host64 : ndarray :=
  array numpy_ndarray float64 [2%N]
    (map (fun z => SFloat (Float.of_Z z)) [1; 3]).

(** A device array of 32-bit integers. *)
Definition device_int32 : ndarray :=
  array cupy_ndarray int32 [2%N] [SInt 7; SInt 9].

(** A device array with no element, of shape (0, 4). *)
Definition empty32 : ndarray :=
  array cupy_ndarray float32 [0%N; 4%N] [].


(** A device array holding the single binary32 value 1.0. *)
Definition unit32 : ndarray :=
  array cupy_ndarray float32 [1%N] [SFloat Float32.one].

(** A host array holding the single binary64 value 1e300. *)
Definition wide64 : ndarray :=
  array numpy_ndarray float64 [1%N] [SFloat (Float.of_Z (10 ^ 300))].

(** The 8-bit image of the spec's scenario, on the device. *)
Definition device_image8 : ndarray :=
  array cupy_ndarray uint8 [3%N] [SInt 0; SInt 128; SInt 255].

(** A device array of 2^31 binary32 zeros. *)
Definition huge32 : ndarray :=
  array cupy_ndarray float32 [2147483648%N]
    (replicate (Z.to_nat (2 ^ 31)) (SFloat (S754_zero false))).

(** An accelerator like [strict] that hands out zero-filled memory. *)
Definition zeroing : accelerator :=
  {| accepts_launch := accepts_launch strict;
     uninitialised := fun _ _ => SFloat (S754_zero false);
     cast_undefined := saturate |}.

(** A world whose only object is the array [a], behind the handle 7. *)
Definition world_at7 (a : ndarray) : world :=
  {| heap := {[ 7%positive := a ]}; launches := []; logged := [] |}.

(** ** The buffers of a call

    What a call on the array [a] behind [h] hands to the kernel: the
    caller's array itself when it is a contiguous device array of binary32
    values (the output buffer is then the only object the call allocates,
    and is what it returns), a buffer allocated by the call otherwise. *)
Definition buffers (w : world) (h : handle) (a : ndarray)
    (r : outcome handle) (w' : world) : Prop :=
  ∃ l, launches w' = launches w ++ [l] ∧
    if bool_decide (cls a = cupy_ndarray ∧ dtype a = float32 ∧
                    c_contiguous a = true)
    then arg_in l = h ∧
         forall res, r = Return res ->
           arg_out l = res ∧ ∃ o, heap w' = <[res := o]> (heap w)
    else arg_in l ≠ h ∧ heap w !! arg_in l = None.

(** A device array of three binary32 values that is not contiguous (a
    strided view). *)
Definition strided32 : ndarray :=
  {| cls := cupy_ndarray; dtype := float32; shape := [3%N];
     c_contiguous := false;
     data := map (fun z => SFloat (Float32.of_Z z)) [2; 4; 6] |}.


(** The binary64 values of [host64], on the device. *)
Definition device64 : ndarray :=
  array cupy_ndarray float64 [2%N]
    (map (fun z => SFloat (Float.of_Z z)) [1; 3]).

(** A device array holding the single binary32 value NaN. *)
Definition nan32 : ndarray :=
  array cupy_ndarray float32 [1%N] [SFloat S754_nan].
(** * Properties *)

(** ** Rules of the program logic *)

Lemma wp_ret {A} (a : A) w Q : Q (Return a) w -> wp (ret a) w Q.
Proof. done. Qed.

Lemma wp_raise {A} e w (Q : outcome A -> world -> Prop) :
  Q (Raise e) w -> wp (raise e) w Q.
Proof. done. Qed.

Lemma wp_bind {A B} (m : M A) (k : A -> M B) w Q :
  wp m w (fun r w' => match r with
                      | Return a => wp (k a) w' Q
                      | Raise e => Q (Raise e) w'
                      end) ->
  wp (bind m k) w Q.
Proof. unfold wp, bind. destruct (m w) as [[a|e] w']; done. Qed.

Lemma wp_new a w Q :
  (forall k, heap w !! k = None -> Q (Return k) (with_heap (insert k a) w)) ->
  wp (new a) w Q.
Proof.
  intros H. unfold wp, new. simpl. apply H.
  apply not_elem_of_dom, is_fresh.
Qed.

Lemma wp_deref h w Q :
  Q (Return (default blank (heap w !! h))) w -> wp (deref h) w Q.
Proof. done. Qed.

Lemma wp_logging_errors {A} (m : M A) w Q :
  wp m w (fun r w' =>
            match r with
            | Return a => Q (Return a) w'
            | Raise e =>
                Q (Raise e)
                  {| heap := heap w'; launches := launches w';
                     logged := logged w' ++ ["[cucim] " +:+ str e] |}
            end) ->
  wp (logging_errors m) w Q.
Proof. unfold wp, logging_errors. destruct (m w) as [[a|e] w']; done. Qed.

(** ** Running the operation on an array *)

Lemma wp_scale acc g b inp out x y lo hi n w o (Q : outcome () -> world -> Prop) :
  heap w !! out = Some o ->
  (let l := {| grid := g; block := b; arg_in := inp; arg_out := out;
               arg_x := x; arg_y := y; arg_b_min := lo; arg_b_max := hi;
               arg_total_size := n |} in
   let w1 := {| heap := heap w; launches := launches w ++ [l];
                logged := logged w |} in
   if accepts_launch acc g b then
     Q (Return ())
       (with_heap (insert out
          {| cls := cls o; dtype := dtype o; shape := shape o;
             c_contiguous := c_contiguous o;
             data := run_grid (fst (fst g)) (fst (fst b))
                       (scaleVolume (data (default blank (heap w !! inp)))
                          x y lo hi n) (data o) |}) w1)
   else Q (Raise (CUDADriverError "CUDA_ERROR_INVALID_VALUE: invalid argument")) w1) ->
  wp (scale acc g b (inp, out, x, y, lo, hi, n)) w Q.
Proof.
  intros Ho H. unfold wp, scale. cbn [heap]. rewrite Ho.
  destruct (accepts_launch acc g b); exact H.
Qed.

Lemma working_data_eq acc (a : ndarray) (b : bool) :
  bool_decide (dtype a ≠ float32) = b ->
  working_data acc a =
    if (if cls a is cupy_ndarray then negb b else false) then data a
    else map (astype_scalar acc float32) (data a).
Proof.
  intros <-. unfold working_data.
  destruct (cls a); repeat case_bool_decide; cbn [negb];
    first [ reflexivity | exfalso; intuition congruence ].
Qed.

Lemma not_ne_float32 (t : element_type) :
  bool_decide (t ≠ float32) = false -> t = float32.
Proof. intros H. apply bool_decide_eq_false in H. by apply dec_stable in H. Qed.

Ltac fresh_facts H :=
  cbn [heap with_heap] in H;
  repeat (rewrite lookup_insert_None in H;
          let H' := fresh "Hne" in destruct H as [H H']).

Ltac lookups :=
  cbn [heap with_heap launches logged log_error];
  repeat first
    [ rewrite lookup_insert_eq
    | rewrite lookup_insert_ne by (intros ?; simplify_eq; congruence)
    | match goal with H : heap _ !! _ = Some _ |- _ => rewrite H end ];
  cbn [default from_option id cls dtype shape c_contiguous data];
  repeat match goal with H : bool_decide _ = _ |- _ => rewrite H end.

Ltac step :=
  lazy beta iota;
  lazymatch goal with
  | |- wp (bind _ _) _ _ => apply wp_bind
  | |- wp (ret _) _ _ => apply wp_ret
  | |- wp (raise _) _ _ => apply wp_raise
  | |- wp (deref _) _ _ => apply wp_deref; lookups
  | |- wp (attr (PyRef _)) _ _ => apply wp_deref; lookups
  | |- wp (new _) _ _ =>
      let k := fresh "k" in let Hk := fresh "Hk" in
      apply wp_new; intros k Hk; fresh_facts Hk
  | |- wp (scale _ _ _ _) _ _ =>
      eapply wp_scale; [lookups; reflexivity|]; lookups
  | |- wp (cupy_asarray _ _ _) _ _ => unfold cupy_asarray
  | |- wp (cupy_ascontiguousarray _) _ _ => unfold cupy_ascontiguousarray
  | |- wp (astype _ _ _) _ _ => unfold astype
  | |- wp (cupy_empty _ _ _) _ _ => unfold cupy_empty
  | |- wp (cupy_asnumpy _) _ _ => unfold cupy_asnumpy
  end.

Ltac same_data HD :=
  lookups;
  unfold returned_data, kernel_output, request, gridx_of;
  cbn [grid block arg_x arg_y arg_b_min arg_b_max arg_total_size];
  rewrite (working_data_eq _ _ _ HD);
  repeat match goal with H : cls _ = _ |- _ => rewrite H end;
  repeat match goal with H : dtype _ = _ |- _ => rewrite H end;
  rewrite ?HD; cbn [negb];
  reflexivity.

Ltac finish HD inp out :=
  unfold on_array;
  exists inp, out; cbn [heap with_heap launches logged log_error];
  split; [ repeat (apply insert_subseteq_r; [done|]); done |];
  split; [ done |];
  split; [ first [ by left | by right ] |];
  split; [ eexists; split; [ lookups; reflexivity |];
           cbn [cls dtype shape data];
           rewrite (working_data_eq _ _ _ HD);
           repeat match goal with H : cls _ = _ |- _ => rewrite H end;
           done |];
  split; [ reflexivity |];
  unfold request at 1 2; cbn [grid block]; unfold gridx_of;
  match goal with H : accepts_launch _ _ _ = _ |- _ => rewrite H end;
  [ eexists; split; [ reflexivity |];
    first
      [ split; [ done |];
        split; [ same_data HD |];
        split; [ same_data HD | done ]
      | done ] ].

Lemma scale_intensity_range_array acc w h a b_max b_min a_max a_min clip :
  heap w !! h = Some a ->
  Float.eqb (Float.sub a_max a_min) Float.zero = false ->
  cls a = numpy_ndarray ∨ can_cast_float32 (dtype a) = true ->
  wp (scale_intensity_range acc (PyRef h) b_max b_min a_max a_min clip) w
     (on_array acc w h a b_max b_min a_max a_min clip).
Proof.
  intros Hh Hne Hok.
  unfold scale_intensity_range. rewrite Hne.
  apply wp_logging_errors, wp_bind.
  unfold array_of at 1. unfold wp at 1. cbn [fst snd]. rewrite Hh. cbn [fmap option_fmap option_map].
  destruct (bool_decide (dtype a ≠ float32)) eqn:HD;
  destruct (cls a) eqn:Hcls.
  - (* host *)
    repeat step.
    rewrite bool_decide_eq_false_2 by (intros H; by apply H). repeat step.
    destruct (accepts_launch _ _ _) eqn:Hacc; repeat step.
    + finish HD k k0. 
    + finish HD k k0.
  - destruct Hok as [|Hok]; [done|].
    repeat step. destruct (c_contiguous a) eqn:Hcontig; repeat step;
      rewrite Hok; cbn [negb]; repeat step;
      destruct (accepts_launch _ _ _) eqn:Hacc; repeat step.
    + finish HD k k0.
    + finish HD k k0.
    + finish HD k0 k1.
    + finish HD k0 k1.
  - pose proof (not_ne_float32 _ HD) as Hd.
    repeat step.
    rewrite bool_decide_eq_false_2 by (intros H; by apply H). repeat step.
    destruct (accepts_launch _ _ _) eqn:Hacc; repeat step.
    + finish HD k k0.
    + finish HD k k0.
  - pose proof (not_ne_float32 _ HD) as Hd.
    repeat step. destruct (c_contiguous a) eqn:Hcontig; repeat step;
      destruct (accepts_launch _ _ _) eqn:Hacc; repeat step.
    + finish HD h k.
    + finish HD h k.
    + finish HD k k0.
    + finish HD k k0.
Qed.

(** The same, as an equation. *)
Lemma run_on_array acc w h a b_max b_min a_max a_min clip :
  heap w !! h = Some a ->
  Float.eqb (Float.sub a_max a_min) Float.zero = false ->
  cls a = numpy_ndarray ∨ can_cast_float32 (dtype a) = true ->
  ∃ r w',
    scale_intensity_range acc (PyRef h) b_max b_min a_max a_min clip w
      = (r, w') ∧
    on_array acc w h a b_max b_min a_max a_min clip r w'.
Proof.
  intros Hh Hne Hok.
  pose proof (scale_intensity_range_array acc w h a b_max b_min a_max a_min
                clip Hh Hne Hok) as H.
  unfold wp in H. eexists _, _. split; [apply surjective_pairing|exact H].
Qed.

(** ** The error paths *)

Lemma run_degenerate acc img b_max b_min a_max a_min clip w :
  Float.eqb (Float.sub a_max a_min) Float.zero = true ->
  scale_intensity_range acc img b_max b_min a_max a_min clip w
    = (Raise same_range_error, log_error w same_range_error).
Proof.
  intros H. unfold scale_intensity_range, logging_errors. by rewrite H.
Qed.

Lemma run_not_an_array acc img b_max b_min a_max a_min clip w :
  Float.eqb (Float.sub a_max a_min) Float.zero = false ->
  refers_to_array w img = None ->
  scale_intensity_range acc img b_max b_min a_max a_min clip w
    = (Raise not_an_array_error, log_error w not_an_array_error).
Proof.
  intros H Himg. unfold scale_intensity_range, logging_errors. rewrite H.
  unfold bind at 1, array_of.
  assert (match img with
          | PyRef h => (fun a => (h, cls a)) <$> heap w !! h
          | _ => None
          end = None) as ->; [|done].
  destruct img as [h| | | |]; try done. cbn in Himg.
  by destruct (heap w !! h).
Qed.

Lemma run_unsafe_cast acc w h a b_max b_min a_max a_min clip :
  heap w !! h = Some a ->
  Float.eqb (Float.sub a_max a_min) Float.zero = false ->
  cls a = cupy_ndarray ->
  can_cast_float32 (dtype a) = false ->
  ∃ w',
    scale_intensity_range acc (PyRef h) b_max b_min a_max a_min clip w
      = (Raise unsafe_cast_error, w') ∧
    heap w ⊆ heap w' ∧ launches w' = launches w ∧
    logged w' = logged w ++ ["[cucim] " +:+ str unsafe_cast_error].
Proof.
  intros Hh Hne Hcls Hcast.
  assert (HD : bool_decide (dtype a ≠ float32) = true).
  { apply bool_decide_eq_true_2. intros E. by rewrite E in Hcast. }
  set (Q := fun (r : outcome handle) (w' : world) =>
              r = Raise unsafe_cast_error ∧ heap w ⊆ heap w' ∧
              launches w' = launches w ∧
              logged w' = logged w ++ ["[cucim] " +:+ str unsafe_cast_error]).
  assert (wp (scale_intensity_range acc (PyRef h) b_max b_min a_max a_min
                clip) w Q) as H.
  { unfold scale_intensity_range. rewrite Hne.
    apply wp_logging_errors, wp_bind.
    unfold array_of at 1. unfold wp at 1. cbn [fst snd].
    rewrite Hh. cbn [fmap option_fmap option_map]. rewrite Hcls.
    repeat step. destruct (c_contiguous a) eqn:Hcontig; repeat step;
      rewrite Hcast; cbn [negb]; repeat step; unfold Q;
      cbn [heap with_heap launches logged log_error]; split_and!; try done.
    by apply insert_subseteq. }
  unfold wp, Q in H. destruct H as (Hr & Hsub & Hl & Hlog).
  eexists. split; [|done].
  rewrite <- Hr. apply surjective_pairing.
Qed.

(** ** Floating-point facts *)

Lemma binary_round_aux_valid prec emax s m e :
  valid_binary prec emax (S754_finite s m e) = true ->
  binary_round_aux prec emax s (Z.pos m) e loc_Exact = S754_finite s m e.
Proof.
  cbn [valid_binary]. unfold bounded, canonical_mantissa.
  intros [Hc Hb]%andb_prop. apply Z.eqb_eq in Hc.
  unfold binary_round_aux, shr_fexp. cbn [Zdigits2]. rewrite Hc, Z.sub_diag.
  cbn [shr shr_record_of_loc shr_m loc_of_shr_record round_nearest_even
       Zdigits2].
  rewrite Hc, Z.sub_diag. cbn [shr shr_m]. by rewrite Hb.
Qed.

Lemma binary_round_valid prec emax s m e :
  valid_binary prec emax (S754_finite s m e) = true ->
  binary_round prec emax s m e = S754_finite s m e.
Proof.
  intros Hv. unfold binary_round, shl_align.
  pose proof Hv as [Hc _]%andb_prop. apply Z.eqb_eq in Hc.
  rewrite Hc, Z.sub_diag. by apply binary_round_aux_valid.
Qed.

(** Converting a value to the format it already has changes nothing. *)
Lemma round_valid prec emax f :
  valid_binary prec emax f = true -> IEEE.round prec emax f = f.
Proof. destruct f; try done. apply binary_round_valid. Qed.

Lemma digits2_pos_shift m k :
  Z.pos (digits2_pos (Pos.iter xO m k)) = Z.pos (digits2_pos m) + Z.pos k.
Proof.
  induction k using Pos.peano_ind.
  - cbn. lia.
  - rewrite Pos.iter_succ. cbn [digits2_pos]. lia.
Qed.

Lemma mul_pow2 m k : (m * Pos.iter xO 1 k = Pos.iter xO m k)%positive.
Proof.
  induction k using Pos.peano_ind.
  - cbn. lia.
  - rewrite !Pos.iter_succ. lia.
Qed.

Lemma iter_pos_iter {A} (f : A -> A) k x :
  SpecFloat.iter_pos f k x = Pos.iter f x k.
Proof.
  revert x. induction k as [k IH|k IH|]; intros x; cbn.
  - rewrite !IH. by rewrite <- !Pos.iter_swap.
  - by rewrite !IH.
  - done.
Qed.

Lemma shr_pow2 m k :
  SpecFloat.iter_pos shr_1 k
    (Build_shr_record (Z.pos (Pos.iter xO m k)) false false)
  = Build_shr_record (Z.pos m) false false.
Proof.
  rewrite iter_pos_iter. induction k using Pos.peano_ind.
  - done.
  - rewrite Pos.iter_succ_r. rewrite Pos.iter_succ. cbn [shr_1 orb]. done.
Qed.

(** Rounding a mantissa that ends in [k] zeros to the format of the value
    without them drops the zeros. *)
Lemma binary_round_aux_shr prec emax s m e k :
  valid_binary prec emax (S754_finite s m e) = true ->
  binary_round_aux prec emax s (Z.pos (Pos.iter xO m k)) (e - Z.pos k)
    loc_Exact = S754_finite s m e.
Proof.
  intros Hv. pose proof Hv as [Hc Hb]%andb_prop.
  apply Z.eqb_eq in Hc.
  unfold binary_round_aux, shr_fexp. cbn [Zdigits2].
  rewrite digits2_pos_shift.
  replace (Z.pos (digits2_pos m) + Z.pos k + (e - Z.pos k))
    with (Z.pos (digits2_pos m) + e) by lia.
  rewrite Hc. replace (e - (e - Z.pos k)) with (Z.pos k) by lia.
  cbn [shr shr_record_of_loc]. rewrite shr_pow2.
  cbn [shr_m loc_of_shr_record round_nearest_even Zdigits2].
  replace (e - Z.pos k + Z.pos k) with e by lia.
  rewrite Hc, Z.sub_diag. cbn [shr shr_m]. by rewrite Hb.
Qed.

(** The product of a value of a format by the one of that format is the
    value: nothing is rounded. *)
Lemma SFmul_one prec emax k v :
  prec = Z.pos k + 1 ->
  valid_binary prec emax v = true ->
  SFmul prec emax v (S754_finite false (Pos.iter xO 1%positive k) (Z.neg k))
    = v.
Proof.
  intros Hk Hv.
  destruct v as [s|s| |s m e]; cbn [SFmul]; rewrite ?xorb_false_r; try done.
  rewrite mul_pow2. replace (e + Z.neg k) with (e - Z.pos k) by lia.
  by apply binary_round_aux_shr.
Qed.

Lemma Float_mul_one v : Float.valid v = true -> Float.mul v Float.one = v.
Proof. apply (SFmul_one 53 1024 52). done. Qed.

Lemma Float32_mul_one v :
  Float32.valid v = true -> Float32.mul v Float32.one = v.
Proof. apply (SFmul_one 24 128 23). done. Qed.

(** A finite non-zero value divided by itself is one. *)
Lemma Float_div_self s m e :
  Float.div (S754_finite s m e) (S754_finite s m e) = Float.one.
Proof.
  unfold Float.div. cbn [SFdiv]. unfold SFdiv_core_binary.
  rewrite !Z.sub_diag. cbn [Zdigits2].
  replace (Z.pos (digits2_pos m) + e - (Z.pos (digits2_pos m) + e))
    with 0 by lia.
  change (Z.min (fexp Float.prec Float.emax 0) 0) with (-53).
  change (0 - -53) with 53. cbv iota beta.
  rewrite Z.shiftl_mul_pow2 by done.
  assert (Z.div_eucl (Z.pos m * 2 ^ 53) (Z.pos m) = (2 ^ 53, 0)) as ->.
  { pose proof (Z_div_mod (Z.pos m * 2 ^ 53) (Z.pos m) ltac:(lia)) as H.
    destruct (Z.div_eucl _ _) as [q r]. destruct H as [H1 H2].
    assert (q = 2 ^ 53) by nia. subst q. f_equal. lia. }
  rewrite xorb_nilpotent.
  assert (new_location (Z.pos m) 0 = loc_Exact) as ->.
  { unfold new_location, new_location_even, new_location_odd.
    by destruct (Z.even _). }
  by vm_compute.
Qed.

(** The difference of a finite value and itself is +0. *)
Lemma Float_sub_self a :
  IEEE.is_finite a = true -> Float.sub a a = S754_zero false.
Proof.
  destruct a as [[]| | |s m e]; try done. intros _.
  unfold Float.sub. cbn [SFsub]. rewrite Z.min_id. unfold shl_align.
  by rewrite !Z.sub_diag.
Qed.

Lemma Float32_sub_zero v : Float32.sub v Float32.zero = v.
Proof. by destruct v as [[]|[]| |]. Qed.

Lemma clamp_unbounded v :
  clamp v (S754_infinity true) (S754_infinity false) = v.
Proof. by destruct v as [[]|[]| |[]]. Qed.

(** *** Order *)




Lemma SFltb_leb a b : SFltb a b = true -> SFleb a b = true.
Proof. unfold SFltb, SFleb. by destruct (SFcompare a b) as [[]|]. Qed.





(** *** Exact conversions *)

Lemma digits2_pos_le m k : Z.pos m < 2 ^ k -> Z.pos (digits2_pos m) <= k.
Proof.
  revert k. induction m as [m IH|m IH|]; intros k Hk; cbn [digits2_pos];
    rewrite ?Pos2Z.inj_succ.
  all: assert (0 < k) by
      (destruct (Z.lt_trichotomy k 0) as [Hn|[->|]]; [|done..];
       rewrite Z.pow_neg_r in Hk; lia).
  all: try (replace k with (Z.succ (k - 1)) in Hk by lia;
            rewrite Z.pow_succ_r in Hk by lia;
            specialize (IH (k - 1)); lia).
  lia.
Qed.

Lemma pos_iter_xO m k : Z.pos (Pos.iter xO m k) = Z.pos m * 2 ^ Z.pos k.
Proof.
  induction k using Pos.peano_ind.
  - cbn. lia.
  - rewrite Pos.iter_succ, Pos2Z.inj_succ, Z.pow_succ_r by lia.
    rewrite Pos2Z.inj_xO, IHk. lia.
Qed.

Lemma shiftr_iter_xO m k :
  Z.shiftr (Z.pos (Pos.iter xO m k)) (Z.pos k) = Z.pos m.
Proof.
  rewrite Z.shiftr_div_pow2 by lia. rewrite pos_iter_xO.
  apply Z.div_mul. lia.
Qed.

(** Rounding a value whose mantissa is too short for the format only
    shifts the mantissa. *)
Lemma binary_round_shl prec emax s m e k :
  fexp prec emax (Z.pos (digits2_pos m) + e) = e - Z.pos k ->
  e - Z.pos k <= emax - prec ->
  binary_round prec emax s m e = S754_finite s (Pos.iter xO m k) (e - Z.pos k).
Proof.
  intros Hf Hb. unfold binary_round, shl_align. rewrite Hf.
  replace (e - Z.pos k - e) with (Z.neg k) by lia.
  apply binary_round_aux_valid. cbn [valid_binary].
  unfold bounded, canonical_mantissa. rewrite digits2_pos_shift.
  apply andb_true_intro. split; [|by apply Z.leb_le].
  apply Z.eqb_eq. unfold fexp in *. lia.
Qed.

(** Integers of at most 16 bits are binary32 values. *)
Lemma small_int_float32 z :
  - 2 ^ 16 < z < 2 ^ 16 ->
  Float32.valid (Float32.of_Z z) = true ∧
  IEEE.trunc (Float32.of_Z z) = Some z.
Proof.
  intros Hz. unfold Float32.of_Z, IEEE.of_Z, binary_normalize.
  destruct z as [|m|m]; [done| |].
  all: pose proof (digits2_pos_le m 16 ltac:(lia)) as Hd.
  all: set (k := Z.to_pos (24 - Z.pos (digits2_pos m))).
  all: assert (Hk : Z.pos k = 24 - Z.pos (digits2_pos m)) by (unfold k; lia).
  all: rewrite (binary_round_shl 24 128 _ m 0 k)
         by (unfold fexp, emin; lia).
  all: split.
  1,3: cbn [Float32.valid valid_binary]; unfold Float32.valid, valid_binary, bounded, canonical_mantissa;
       rewrite digits2_pos_shift; apply andb_true_intro; split;
       [apply Z.eqb_eq; unfold fexp, emin, Float32.prec, Float32.emax; lia
       | apply Z.leb_le; unfold Float32.prec, Float32.emax; lia].
  all: change (0 - Z.pos k) with (Z.neg k); cbn [IEEE.trunc];
       by rewrite shiftr_iter_xO.
Qed.

(** A binary16 value is a binary32 value, and comes back unchanged. *)
Lemma half_float32 f :
  valid_binary 11 16 f = true ->
  Float32.valid (IEEE.round 24 128 f) = true ∧
  IEEE.round 11 16 (IEEE.round 24 128 f) = f.
Proof.
  destruct f as [s|s| |s m e]; try done. intros Hv.
  pose proof Hv as [Hc Hb]%andb_prop.
  apply Z.eqb_eq in Hc. apply Z.leb_le in Hb.
  unfold fexp, emin in Hc.
  set (k := Z.to_pos (24 - Z.pos (digits2_pos m))).
  assert (Hk : Z.pos k = 24 - Z.pos (digits2_pos m)) by (unfold k; lia).
  cbn [IEEE.round].
  rewrite (binary_round_shl 24 128 s m e k) by (unfold fexp, emin; lia).
  split.
  - unfold Float32.valid, valid_binary, bounded, canonical_mantissa.
    rewrite digits2_pos_shift. apply andb_true_intro. split.
    + apply Z.eqb_eq. unfold fexp, emin, Float32.prec, Float32.emax. lia.
    + apply Z.leb_le. unfold Float32.prec, Float32.emax. lia.
  - cbn [IEEE.round]. unfold binary_round, shl_align.
    rewrite digits2_pos_shift.
    replace (fexp 11 16 (Z.pos (digits2_pos m) + Z.pos k + (e - Z.pos k)))
      with e by (unfold fexp, emin; lia).
    replace (e - (e - Z.pos k)) with (Z.pos k) by lia. cbv iota beta.
    by apply binary_round_aux_shr.
Qed.

(** An integer of an integer type of at most 16 bits is converted to a
    binary32 value, and truncating that gives the integer. *)
Lemma int_roundtrip acc t s b z :
  kind_of t = KInt s b ->
  0 < b <= 16 ->
  (int_min s b <=? z) && (z <=? int_max s b) = true ->
  Float32.valid (Float32.of_Z z) = true ∧
  astype_scalar acc t (SFloat (Float32.of_Z z)) = SInt z.
Proof.
  intros Ht Hb [Hlo%Z.leb_le Hhi%Z.leb_le]%andb_prop.
  assert (2 ^ b <= 2 ^ 16) by (apply Z.pow_le_mono_r; lia).
  assert (0 < 2 ^ (b - 1) < 2 ^ b)
    by (split; [apply Z.pow_pos_nonneg|apply Z.pow_lt_mono_r]; lia).
  assert (Hz : - 2 ^ 16 < z < 2 ^ 16).
  { unfold int_min, int_max in *. destruct s; lia. }
  destruct (small_int_float32 z Hz) as [H1 H2]. split; [exact H1|].
  unfold astype_scalar. rewrite Ht. cbn [as_int]. unfold float_to_int.
  rewrite H2.
  by rewrite (proj2 (Z.leb_le _ _) Hlo), (proj2 (Z.leb_le _ _) Hhi).
Qed.

(** Every value of an element type that casts safely to float32 is
    converted to a binary32 value, and converting that back gives the
    value. *)
Lemma cast_roundtrip acc t v :
  can_cast_float32 t = true ->
  well_typed t v = true ->
  well_typed float32 (astype_scalar acc float32 v) = true ∧
  astype_scalar acc t (astype_scalar acc float32 v) = v.
Proof.
  intros Ht Hv.
  destruct t; try done; destruct v as [b|z|f|re im]; try done.
  - (* bool_ *) by destruct b.
  - (* int8 *) by apply (int_roundtrip acc int8 true 8).
  - (* int16 *) by apply (int_roundtrip acc int16 true 16).
  - (* uint8 *) by apply (int_roundtrip acc uint8 false 8).
  - (* uint16 *) by apply (int_roundtrip acc uint16 false 16).
  - (* float16 *)
    destruct (half_float32 f Hv) as [H1 H2]. split; [exact H1|].
    unfold astype_scalar. cbn [kind_of as_float].
    change Float32.prec with 24. change Float32.emax with 128.
    by rewrite H2.
  - (* float32 *)
    unfold astype_scalar. cbn [kind_of as_float].
    cbn in Hv. fold Float32.prec Float32.emax in Hv.
    rewrite !(round_valid _ _ _ Hv). by split.
Qed.

(** Every element of a well-typed array of a safely cast type gives a
    binary32 value, and converting the binary32 values back gives the
    array. *)
Lemma roundtrip_list acc t l :
  can_cast_float32 t = true ->
  forallb (well_typed t) l = true ->
  forallb (well_typed float32) (map (astype_scalar acc float32) l) = true ∧
  map (astype_scalar acc t) (map (astype_scalar acc float32) l) = l.
Proof.
  intros Ht. induction l as [|v l IH]; [done|]. cbn [forallb map].
  intros [Hv Hl]%andb_prop. destruct (IH Hl) as [IH1 IH2].
  destruct (cast_roundtrip acc t v Ht Hv) as [H1 H2].
  by rewrite H1, IH1, H2, IH2.
Qed.

Lemma astype_float32_id acc l :
  forallb (well_typed float32) l = true ->
  map (astype_scalar acc float32) l = l.
Proof.
  induction l as [|v l IH]; [done|]. cbn [forallb map].
  intros [Hv Hl]%andb_prop. rewrite IH by done. f_equal.
  destruct v as [| |f|]; try done.
  unfold astype_scalar. cbn [kind_of as_float]. f_equal.
  by apply round_valid.
Qed.

Lemma working_data_cast acc a :
  forallb (well_typed (dtype a)) (data a) = true ->
  working_data acc a = map (astype_scalar acc float32) (data a).
Proof.
  intros Hall. unfold working_data. case_bool_decide as H; [|done].
  destruct H as [_ Hd]. rewrite Hd in Hall.
  by rewrite astype_float32_id.
Qed.

(** With the coefficients 1 and 0 and no bounds, a thread writes the
    element it reads. *)
Lemma written_identity v :
  well_typed float32 v = true ->
  written Float32.one Float32.zero (S754_infinity true) (S754_infinity false)
    v = v.
Proof.
  destruct v as [| |f|]; try done. intros Hf.
  unfold written, scale_elem, float_of. cbn [as_float].
  rewrite (round_valid _ _ _ Hf), (Float32_mul_one _ Hf), Float32_sub_zero.
  by rewrite clamp_unbounded.
Qed.

(** The coefficients of the identity call: x = 1 and y = 0. *)
Lemma identity_coefficients a_max a_min s m e :
  IEEE.is_finite a_min = true ->
  Float.valid a_min = true ->
  Float.sub a_max a_min = S754_finite s m e ->
  Float.div (Float.sub a_max a_min) (Float.sub a_max a_min) = Float.one ∧
  Float.sub (Float.mul a_min Float.one) a_min = Float.zero.
Proof.
  intros Hfin Hval Hd. rewrite Hd, Float_div_self. split; [done|].
  by rewrite Float_mul_one, Float_sub_self.
Qed.

(** ** Sizes and launch geometry *)

Lemma np_prod_nonneg sh : 0 <= np_prod sh.
Proof.
  unfold np_prod. induction sh as [|d sh IH]; simpl; [lia|].
  apply Z.mul_nonneg_nonneg; [lia|done].
Qed.

Lemma np_prod_zero sh : 0%N ∈ sh -> np_prod sh = 0.
Proof.
  unfold np_prod. induction sh as [|d sh IH]; simpl; intros H.
  - by apply elem_of_nil in H.
  - apply elem_of_cons in H as [<-|H]; [done|]. rewrite IH by done. lia.
Qed.

(** *** The grid width

    The grid width is computed on binary64 values.  Up to 2^53 - 128
    elements nothing is rounded: the count less one is converted exactly,
    the division by 128 only lowers the exponent, and the sum with 1 has at
    most 53 bits.  For the 127 counts that follow the sum is rounded, but
    not up to the next integer; at 2^53 elements it is. *)

Lemma digits2_pos_spec m :
  2 ^ (Z.pos (digits2_pos m) - 1) <= Z.pos m < 2 ^ Z.pos (digits2_pos m).
Proof.
  induction m as [m IH|m IH|]; cbn [digits2_pos]; rewrite ?Pos2Z.inj_succ.
  1,2: replace (Z.succ (Z.pos (digits2_pos m)) - 1)
         with (Z.succ (Z.pos (digits2_pos m) - 1)) by lia;
       rewrite !Z.pow_succ_r by lia; lia.
  done.
Qed.

Lemma shl_align_value m e e' :
  e' <= e ->
  Z.pos (fst (shl_align m e e')) = Z.pos m * 2 ^ (e - e').
Proof.
  intros H. unfold shl_align. destruct (e' - e) as [|k|k] eqn:E; [|lia|].
  - cbn [fst]. replace (e - e') with 0 by lia. lia.
  - cbn [fst]. rewrite pos_iter_xO. f_equal. f_equal. lia.
Qed.

(** A mantissa of the format followed by [j] zeros is rounded to the
    mantissa. *)
Lemma binary_round_shr prec emax s M e j :
  valid_binary prec emax (S754_finite s M e) = true ->
  binary_round prec emax s (Pos.iter xO M j) (e - Z.pos j) = S754_finite s M e.
Proof.
  intros Hv. pose proof Hv as [Hc _]%andb_prop. apply Z.eqb_eq in Hc.
  unfold binary_round, shl_align. rewrite digits2_pos_shift.
  replace (Z.pos (digits2_pos M) + Z.pos j + (e - Z.pos j))
    with (Z.pos (digits2_pos M) + e) by lia.
  rewrite Hc. replace (e - (e - Z.pos j)) with (Z.pos j) by lia.
  by apply binary_round_aux_shr.
Qed.

(** The conversion of a positive integer of at most 53 bits is exact. *)
Lemma of_Z_exact p :
  Z.pos p < 2 ^ 53 ->
  let d := Z.pos (digits2_pos p) in
  ∃ M, Z.pos M = Z.pos p * 2 ^ (53 - d) ∧ Z.pos (digits2_pos M) = 53 ∧
       Float.of_Z (Z.pos p) = S754_finite false M (d - 53).
Proof.
  intros Hp d. pose proof (digits2_pos_le p 53 Hp) as Hd. fold d in Hd.
  unfold Float.of_Z, IEEE.of_Z, binary_normalize.
  destruct (53 - d) as [|k|k] eqn:E; [|..|lia].
  - exists p. split_and!; [lia|unfold d in *; lia|].
    replace (d - 53) with 0 by lia. apply binary_round_valid.
    cbn [valid_binary]. unfold bounded, canonical_mantissa.
    apply andb_true_intro. split; [apply Z.eqb_eq|apply Z.leb_le].
    + unfold fexp, emin, Float.prec, Float.emax, d in *. lia.
    + unfold Float.prec, Float.emax. lia.
  - exists (Pos.iter xO p k). split_and!.
    + apply pos_iter_xO.
    + rewrite digits2_pos_shift. unfold d in *. lia.
    + replace (d - 53) with (0 - Z.pos k) by lia.
      apply binary_round_shl.
      * unfold fexp, emin, Float.prec, Float.emax, d in *. lia.
      * unfold Float.prec, Float.emax. lia.
Qed.

(** Dividing a binary64 value by 128 lowers its exponent by 7. *)
Lemma Float_div_128 M e :
  Z.pos (digits2_pos M) = 53 ->
  -1000 <= e <= 900 ->
  Float.div (S754_finite false M e) (Float.of_Z 128)
    = S754_finite false M (e - 7).
Proof.
  intros HM He.
  change (Float.of_Z 128) with (S754_finite false 4503599627370496 (-45)).
  unfold Float.div. cbn [SFdiv xorb]. unfold SFdiv_core_binary.
  cbn [Zdigits2]. rewrite HM.
  change (Z.pos (digits2_pos 4503599627370496)) with 53.
  replace (Z.min (fexp Float.prec Float.emax (53 + e - (53 + -45)))
             (e - -45)) with (e - 8)
    by (unfold fexp, emin, Float.prec, Float.emax; lia).
  replace (e - -45 - (e - 8)) with 53 by lia. cbv iota beta.
  rewrite Z.shiftl_mul_pow2 by done.
  assert (Z.div_eucl (Z.pos M * 2 ^ 53) 4503599627370496
          = (Z.pos (Pos.iter xO M 1), 0)) as ->.
  { pose proof (Z_div_mod (Z.pos M * 2 ^ 53) 4503599627370496 ltac:(lia))
      as H.
    destruct (Z.div_eucl _ _) as [q r]. destruct H as [H1 H2].
    cbn [Pos.iter]. f_equal; lia. }
  change (new_location 4503599627370496 0) with loc_Exact.
  replace (e - 8) with (e - 7 - 1) by lia.
  apply binary_round_aux_shr. cbn [valid_binary].
  unfold bounded, canonical_mantissa. rewrite HM.
  apply andb_true_intro. split; [apply Z.eqb_eq|apply Z.leb_le].
  - unfold fexp, emin, Float.prec, Float.emax. lia.
  - unfold Float.prec, Float.emax. lia.
Qed.

(** [int((n - 1) / 128 + 1)] on binary64 values is the ceiling of n / 128
    for every count n with n + 127 < 2^53. *)
Lemma grid_width_exact n :
  0 <= n -> n + 127 < 2 ^ 53 ->
  py_int (Float.add (Float.div (Float.of_Z (n - 1)) (Float.of_Z 128))
            (Float.of_Z 1)) = (n + 127) / 128.
Proof.
  intros Hn Hb.
  destruct (n - 1) as [|p|p] eqn:Ep.
  - replace n with 1 by lia. by vm_compute.
  - destruct (of_Z_exact p ltac:(lia)) as (M & HM & HdM & ->).
    set (d := Z.pos (digits2_pos p)) in *.
    pose proof (digits2_pos_spec p) as Hp. fold d in Hp.
    assert (Hd : 1 <= d <= 53).
    { split; [unfold d; lia|]. apply digits2_pos_le. lia. }
    rewrite Float_div_128 by (done || lia).
    replace (d - 53 - 7) with (d - 60) by lia.
    change (Float.of_Z 1) with (S754_finite false 4503599627370496 (-52)).
    unfold Float.add. cbn [SFadd cond_Zopp].
    set (ez := Z.min (d - 60) (-52)).
    rewrite !shl_align_value by (unfold ez; lia).
    set (q := Z.to_pos (Z.pos p + 128)).
    assert (Hq : Z.pos q = Z.pos p + 128) by (unfold q; lia).
    pose proof (digits2_pos_spec q) as Hdq.
    set (dq := Z.pos (digits2_pos q)) in *.
    assert (Hdq53 : dq <= 53) by (apply digits2_pos_le; lia).
    assert (Hsum : Z.pos M * 2 ^ (d - 60 - ez)
                   + 4503599627370496 * 2 ^ (-52 - ez)
                   = Z.pos q * 2 ^ (-7 - ez)).
    { rewrite HM, Hq.
      change 4503599627370496 with (2 ^ 52).
      rewrite <- Z.mul_assoc, <- !Z.pow_add_r by (unfold ez; lia).
      replace (53 - d + (d - 60 - ez)) with (-7 - ez) by lia.
      replace (52 + (-52 - ez)) with (7 + (-7 - ez)) by lia.
      rewrite (Z.pow_add_r 2 7) by (unfold ez; lia). lia. }
    rewrite Hsum.
    assert (Hj : 1 <= dq - 60 - ez).
    { destruct (Z.le_gt_cases 128 (Z.pos p)) as [Hbig|Hsmall].
      - assert (8 < dq).
        { apply (Z.pow_lt_mono_r_iff 2); [lia..|].
          change (2 ^ 8) with 256. lia. }
        assert (7 < d).
        { apply (Z.pow_lt_mono_r_iff 2); [lia..|].
          change (2 ^ 7) with 128. lia. }
        unfold ez. lia.
      - assert (7 < dq).
        { apply (Z.pow_lt_mono_r_iff 2); [lia..|].
          change (2 ^ 7) with 128. lia. }
        assert (d - 1 < 7).
        { apply (Z.pow_lt_mono_r_iff 2); [lia..|].
          change (2 ^ 7) with 128. lia. }
        unfold ez. lia. }
    set (j := Z.to_pos (dq - 60 - ez)).
    assert (Hjz : Z.pos j = dq - 60 - ez) by (unfold j; lia).
    destruct (53 - dq) as [|k|k] eqn:Ek; [| |lia].
    + assert (HS : Z.pos q * 2 ^ (-7 - ez) = Z.pos (Pos.iter xO q j)).
      { rewrite pos_iter_xO. f_equal. f_equal. lia. }
      rewrite HS. cbn [binary_normalize].
      replace ez with (dq - 60 - Z.pos j) by lia.
      rewrite binary_round_shr.
      * unfold py_int. cbn [IEEE.trunc].
        replace (dq - 60) with (-7) by lia. cbn [default from_option id].
        rewrite Z.shiftr_div_pow2 by lia. rewrite Hq. f_equal. lia.
      * cbn [valid_binary]. unfold bounded, canonical_mantissa. fold dq.
        apply andb_true_intro. split; [apply Z.eqb_eq|apply Z.leb_le].
        -- unfold fexp, emin, Float.prec, Float.emax. lia.
        -- unfold Float.prec, Float.emax. lia.
    + assert (HS : Z.pos q * 2 ^ (-7 - ez)
                   = Z.pos (Pos.iter xO (Pos.iter xO q k) j)).
      { rewrite !pos_iter_xO. rewrite <- Z.mul_assoc, <- Z.pow_add_r by lia.
        f_equal. f_equal. lia. }
      rewrite HS. cbn [binary_normalize].
      replace ez with (dq - 60 - Z.pos j) by lia.
      rewrite binary_round_shr.
      * unfold py_int. cbn [IEEE.trunc].
        destruct (dq - 60) as [| |t] eqn:Et; [lia..|].
        cbn [default from_option id].
        rewrite Z.shiftr_div_pow2 by lia. rewrite pos_iter_xO, Hq.
        replace (Z.pos t) with (Z.pos k + 7) by lia.
        rewrite Z.pow_add_r by lia.
        rewrite (Z.mul_comm (2 ^ Z.pos k)), Z.div_mul_cancel_r by lia.
        f_equal. lia.
      * cbn [valid_binary]. unfold bounded, canonical_mantissa.
        rewrite digits2_pos_shift. fold dq.
        apply andb_true_intro. split; [apply Z.eqb_eq|apply Z.leb_le].
        -- unfold fexp, emin, Float.prec, Float.emax. lia.
        -- unfold Float.prec, Float.emax. lia.
  - assert (p = 1%positive) as -> by lia. replace n with 0 by lia.
    by vm_compute.
Qed.

(** The 127 counts below 2^53 for which the sum is rounded. *)
Lemma grid_width_rounded :
  forallb
    (fun i =>
       let n := 2 ^ 53 - 127 + i in
       py_int (Float.add (Float.div (Float.of_Z (n - 1)) (Float.of_Z 128))
                 (Float.of_Z 1)) =? (n + 127) / 128)
    (seqZ 0 127) = true.
Proof. by vm_compute. Qed.

Lemma gridx_of_div sh :
  np_prod sh < 2 ^ 53 -> gridx_of sh = (np_prod sh + 127) / 128.
Proof.
  intros H. pose proof (np_prod_nonneg sh) as Hn. unfold gridx_of.
  destruct (Z.lt_ge_cases (np_prod sh + 127) (2 ^ 53)) as [Hlow|Htop].
  { by apply grid_width_exact. }
  pose proof grid_width_rounded as Hall.
  rewrite forallb_forall in Hall.
  specialize (Hall (np_prod sh - (2 ^ 53 - 127))).
  cbn zeta in Hall.
  replace (2 ^ 53 - 127 + (np_prod sh - (2 ^ 53 - 127)))
    with (np_prod sh) in Hall by lia.
  apply Z.eqb_eq, Hall, list_elem_of_In, elem_of_seqZ. lia.
Qed.

Lemma gridx_of_ceil sh :
  np_prod sh < 2 ^ 53 ->
  (gridx_of sh - 1) * 128 < np_prod sh <= gridx_of sh * 128.
Proof.
  intros H. rewrite gridx_of_div by done. pose proof (np_prod_nonneg sh).
  pose proof (Z.div_mod (np_prod sh + 127) 128 ltac:(lia)).
  pose proof (Z.mod_pos_bound (np_prod sh + 127) 128 ltac:(lia)). lia.
Qed.

Lemma np_int32_id n : 0 <= n < 2 ^ 31 -> np_int32 n = n.
Proof.
  intros H. unfold np_int32, wrap.
  change (2 ^ (32 - 1)) with 2147483648. change (2 ^ 32) with 4294967296.
  change (2 ^ 31) with 2147483648 in H.
  rewrite Z.mod_small; lia.
Qed.

(** ** The kernel covers the buffer *)

Lemma foldl_seqZ_ind {A} (P : Z -> A -> Prop) (f : A -> Z -> A) (a : A)
    (m : Z) :
  0 <= m ->
  P 0 a ->
  (forall j x, 0 <= j < m -> P j x -> P (j + 1) (f x j)) ->
  P m (foldl f a (seqZ 0 m)).
Proof.
  intros Hm H0 Hstep.
  rewrite <- (Z2Nat.id m) by done.
  assert (Hle : (Z.to_nat m <= Z.to_nat m)%nat) by done.
  revert Hle. generalize (Z.to_nat m) at 1 3 4 as k.
  induction k as [|k IH]; intros Hk.
  - by rewrite seqZ_nil.
  - rewrite seqZ_S, foldl_snoc, Nat2Z.inj_succ, Z.add_0_l.
    apply Hstep; [lia|]. apply IH. lia.
Qed.

Section Kernel.
Variables (input : list scalar) (x y lower upper : spec_float) (n : Z).
Variable out0 : list scalar.
Hypothesis Hin : n <= Z.of_nat (length input).
Hypothesis Hout : n <= Z.of_nat (length out0).

Lemma done_upto_thread b B t out :
  0 <= b -> 0 <= B -> 0 <= t ->
  done_upto input x y lower upper n out0 (b * B + t) out ->
  done_upto input x y lower upper n out0 (b * B + t + 1)
    (scaleVolume input x y lower upper n b B t out).
Proof.
  intros Hb HB Ht [Hlen Hlook]. unfold scaleVolume.
  set (k := b * B + t) in *. assert (0 <= k) by (unfold k; nia).
  destruct (Z.ltb_spec k n) as [Hlt|Hge].
  - destruct (lookup_lt_is_Some_2 input (Z.to_nat k)) as [v Hv]; [lia|].
    rewrite Hv. split; [by rewrite length_insert|].
    intros i. destruct (decide (i = Z.to_nat k)) as [->|Hne].
    + rewrite list_lookup_insert_eq by lia.
      rewrite decide_True by lia. by rewrite Hv.
    + rewrite list_lookup_insert_ne by done. rewrite Hlook.
      repeat case_decide; try done; lia.
  - split; [done|]. intros i. rewrite Hlook.
    repeat case_decide; try done; lia.
Qed.

Lemma done_upto_grid G B :
  0 <= G -> 0 <= B ->
  done_upto input x y lower upper n out0 (G * B)
    (run_grid G B (scaleVolume input x y lower upper n) out0).
Proof.
  intros HG HB. unfold run_grid.
  apply (foldl_seqZ_ind
           (fun g => done_upto input x y lower upper n out0 (g * B)));
    [done| |].
  - split; [done|]. intros i. case_decide; [|done].
    pose proof (Zle_0_nat i). lia.
  - intros b out Hb Hinv.
    replace ((b + 1) * B) with (b * B + B) by lia.
    apply (foldl_seqZ_ind
             (fun t => done_upto input x y lower upper n out0 (b * B + t)));
      [done| |].
    + by rewrite Z.add_0_r.
    + intros t o Ht Ho. rewrite Z.add_assoc.
      apply done_upto_thread; [lia..|done].
Qed.
End Kernel.

Lemma length_working_data acc a :
  length (working_data acc a) = length (data a).
Proof. unfold working_data. case_bool_decide; by rewrite ?length_map. Qed.

(** After the requested launch on a well-formed array of fewer than 2^31
    elements, every element of the output buffer has been written from the
    element of the working buffer at the same index. *)
Lemma kernel_output_request acc a inp out b_max b_min a_max a_min clip :
  well_formed a ->
  np_prod (shape a) < 2 ^ 31 ->
  let l := request a inp out b_max b_min a_max a_min clip in
  length (kernel_output acc a l) = length (data a) ∧
  forall i : nat,
    kernel_output acc a l !! i =
      written (arg_x l) (arg_y l) (arg_b_min l) (arg_b_max l)
        <$> working_data acc a !! i.
Proof.
  intros Hwf Hsmall l. unfold well_formed in Hwf.
  pose proof (np_prod_nonneg (shape a)) as Hn.
  pose proof (gridx_of_ceil (shape a) ltac:(lia)) as Hg.
  unfold kernel_output.
  assert (Hl : arg_total_size l = np_prod (shape a)) by by apply np_int32_id.
  rewrite Hl. cbn [l request grid block fst].
  set (out0 := map _ (seq _ _)).
  assert (Hlen0 : length out0 = length (data a)).
  { unfold out0. by rewrite length_map, length_seq. }
  destruct (done_upto_grid (working_data acc a) (arg_x l) (arg_y l)
              (arg_b_min l) (arg_b_max l) (np_prod (shape a)) out0
              ltac:(rewrite length_working_data; lia) ltac:(lia)
              (gridx_of (shape a)) 128 ltac:(lia) ltac:(lia))
    as [Hlen Hlook].
  split; [by rewrite Hlen|].
  intros i. rewrite Hlook. case_decide; [done|].
  rewrite !lookup_ge_None_2; [done|rewrite length_working_data; lia|lia].
Qed.




(** ** What a returning call went through *)

Lemma returned_inv acc w h a b_max b_min a_max a_min clip r w' :
  heap w !! h = Some a ->
  scale_intensity_range acc (PyRef h) b_max b_min a_max a_min clip w
    = (Return r, w') ->
  Float.eqb (Float.sub a_max a_min) Float.zero = false ∧
  (cls a = numpy_ndarray ∨ can_cast_float32 (dtype a) = true) ∧
  ∃ inp out,
    let l := request a inp out b_max b_min a_max a_min clip in
    accepts_launch acc (grid l) (block l) = true ∧
    heap w ⊆ heap w' ∧ heap w !! out = None ∧ heap w !! r = None ∧
    (inp = h ∨ heap w !! inp = None) ∧
    (∃ c, heap w' !! inp = Some c ∧ cls c = cupy_ndarray ∧
          dtype c = float32 ∧ shape c = shape a ∧
          data c = working_data acc a) ∧
    launches w' = launches w ++ [l] ∧
    heap w' !! out =
      Some {| cls := cupy_ndarray; dtype := float32; shape := shape a;
              c_contiguous := true; data := kernel_output acc a l |} ∧
    heap w' !! r =
      Some {| cls := cls a; dtype := dtype a; shape := shape a;
              c_contiguous := true; data := returned_data acc a l |} ∧
    logged w' = logged w.
Proof.
  intros Hh Hrun.
  destruct (Float.eqb (Float.sub a_max a_min) Float.zero) eqn:Hne.
  { by rewrite run_degenerate in Hrun. }
  assert (Hok : cls a = numpy_ndarray ∨ can_cast_float32 (dtype a) = true).
  { destruct (cls a) eqn:Hcls; [by left|].
    destruct (can_cast_float32 (dtype a)) eqn:Hcast; [by right|].
    destruct (run_unsafe_cast acc w h a b_max b_min a_max a_min clip
                Hh Hne Hcls Hcast) as (w0 & Hrun0 & _).
    congruence. }
  split_and!; [done..|].
  destruct (run_on_array acc w h a b_max b_min a_max a_min clip Hh Hne Hok)
    as (r0 & w0 & Hrun0 & inp & out & Hsub & Hout & Hinp & Hc & Hl & Hacc).
  rewrite Hrun in Hrun0. injection Hrun0 as <- <-.
  exists inp, out. cbn zeta in *.
  destruct (accepts_launch _ _ _).
  - destruct Hacc as (res & [= <-] & Hr & Ho & Hres & Hlog).
    split_and!; done.
  - by destruct Hacc as (msg & ? & _).
Qed.

(** * The claims *)

(** ** C1: what the kernel pass computes *)




(** The scenario of the spec: the 8-bit image [0, 128, 255] on the host,
    scaled from [0, 255] to [-1, 1] with clip.  One block of 128 threads is
    launched with x = float32(2/255), y = 1 and the bounds -1 and 1; the
    kernel writes -1.0, 0.0039..., 1.0, and the cast back to 8-bit unsigned
    integers (saturating on this accelerator) returns [0, 0, 1]. *)
Lemma spec_scenario_8bit_image :
  launches
    (scale_intensity_range strict img (Float.of_Z 1) (Float.of_Z (-1))
       (Float.of_Z 255) (Float.of_Z 0) true (world_of image8)).2
  = [ {| grid := (1, 1, 1); block := (128, 1, 1);
         arg_in := 2%positive; arg_out := 3%positive;
         arg_x := S754_finite false 8421505 (-30);
         arg_y := Float32.one;
         arg_b_min := Float32.of_Z (-1);
         arg_b_max := Float32.of_Z 1;
         arg_total_size := 3 |} ] ∧
  data <$>
    heap (scale_intensity_range strict img (Float.of_Z 1) (Float.of_Z (-1))
            (Float.of_Z 255) (Float.of_Z 0) true (world_of image8)).2
      !! 3%positive
  = Some [SFloat (Float32.of_Z (-1));
          SFloat (S754_finite false 8421632 (-31));
          SFloat (Float32.of_Z 1)] ∧
  heap (scale_intensity_range strict img (Float.of_Z 1) (Float.of_Z (-1))
          (Float.of_Z 255) (Float.of_Z 0) true (world_of image8)).2
    !! 5%positive
  = Some (array numpy_ndarray uint8 [3%N] [SInt 0; SInt 0; SInt 1]).
Proof. by vm_compute. Qed.

(** ** C2: element types that do not cast safely *)

(** C2, at the failing input: a host array of binary64 values, which do
    not cast safely to float32, is not rejected.
    cupy.asarray(img, dtype=cupy.float32) has already converted it when
    the test cupy_img.dtype != cupy.float32 is made, so the safety check
    on img.dtype is never reached for a host array, and the call returns.
    The same values in a device array are rejected by that check. *)
Lemma host_float64_is_converted :
  let run :=
    scale_intensity_range strict img (Float.of_Z 1) (Float.of_Z 0)
      (Float.of_Z 3) (Float.of_Z 1) false (world_of host64) in
  let run_device :=
    scale_intensity_range strict img (Float.of_Z 1) (Float.of_Z 0)
      (Float.of_Z 3) (Float.of_Z 1) false (world_of device64) in
  cls host64 = numpy_ndarray ∧
  dtype host64 ≠ float32 ∧
  can_cast_float32 (dtype host64) = false ∧
  run.1 = Return 5%positive ∧
  length (launches run.2) = 1%nat ∧
  cls device64 = cupy_ndarray ∧
  dtype device64 = dtype host64 ∧
  data device64 = data host64 ∧
  run_device.1 = Raise unsafe_cast_error ∧
  launches run_device.2 = [].
Proof. by vm_compute. Qed.

(** The check where it is reached.  When the range is not degenerate: for
    every accelerator-resident array whose element type cannot be safely
    cast to float32 the call fails with the ValueError of the cast, before
    any launch; for every accelerator-resident array whose element type is
    not float32 but casts safely, and for every host-resident array
    whatever its element type, the buffer handed to the kernel is the
    conversion of the input to float32. *)
Theorem unsafe_cast_rejected_on_device
    acc w h a b_max b_min a_max a_min clip :
  heap w !! h = Some a ->
  Float.eqb (Float.sub a_max a_min) Float.zero = false ->
  let run :=
    scale_intensity_range acc (PyRef h) b_max b_min a_max a_min clip w in
  (cls a = cupy_ndarray -> can_cast_float32 (dtype a) = false ->
   run.1 = Raise unsafe_cast_error ∧ launches run.2 = launches w) ∧
  (cls a = numpy_ndarray ∨
   (dtype a ≠ float32 ∧ can_cast_float32 (dtype a) = true) ->
   ∃ l c,
     launches run.2 = launches w ++ [l] ∧
     heap run.2 !! arg_in l = Some c ∧
     dtype c = float32 ∧
     data c = map (astype_scalar acc float32) (data a)).
Proof.
  intros Hh Hne run. split.
  - intros Hcls Hcast.
    destruct (run_unsafe_cast acc w h a b_max b_min a_max a_min clip
                Hh Hne Hcls Hcast) as (w' & Hrun & _ & Hl & _).
    unfold run. by rewrite Hrun.
  - intros Hconv.
    assert (Hok : cls a = numpy_ndarray ∨ can_cast_float32 (dtype a) = true)
      by (destruct Hconv as [|[_ ?]]; [by left|by right]).
    destruct (run_on_array acc w h a b_max b_min a_max a_min clip Hh Hne Hok)
      as (r & w' & Hrun & inp & out & _ & _ & _
          & (c & Hc & _ & Hdt & _ & Hdata) & Hl & _).
    unfold run. rewrite Hrun. cbn [fst snd].
    eexists _, c. split_and!; [exact Hl | exact Hc | exact Hdt |].
    rewrite Hdata. unfold working_data.
    rewrite bool_decide_eq_false_2; [done|].
    intros [Hcls Hd]. destruct Hconv as [?|[? _]]; congruence.
Qed.

Lemma unsafe_cast_rejected_on_device_witness :
  let w := world_of device_int32 in
  let run :=
    scale_intensity_range strict img (Float.of_Z 1) (Float.of_Z 0)
      (Float.of_Z 3) (Float.of_Z 1) false w in
  heap w !! 1%positive = Some device_int32 ∧
  Float.eqb (Float.sub (Float.of_Z 3) (Float.of_Z 1)) Float.zero = false ∧
  cls device_int32 = cupy_ndarray ∧
  can_cast_float32 (dtype device_int32) = false ∧
  run.1 = Raise unsafe_cast_error ∧ launches run.2 = launches w.
Proof.
  intros w run.
  assert (H1 : heap w !! 1%positive = Some device_int32) by reflexivity.
  assert (H2 : Float.eqb (Float.sub (Float.of_Z 3) (Float.of_Z 1))
                 Float.zero = false) by reflexivity.
  split_and!; [exact H1 | exact H2 | reflexivity | reflexivity | |];
    apply (unsafe_cast_rejected_on_device strict w 1%positive device_int32
             (Float.of_Z 1) (Float.of_Z 0) (Float.of_Z 3) (Float.of_Z 1)
             false H1 H2); reflexivity.
Defined.

(** ** C3: the returned array looks like the input *)

(** C3.  Whenever the call returns, the returned array has the shape, the
    element type and the memory location (host or accelerator) of the
    input array; and the call does return on every valid input: an array
    whose element type is accepted, a range that is not degenerate, a
    launch the driver accepts. *)
Theorem returned_array_keeps_shape_type_location
    acc w h a b_max b_min a_max a_min clip :
  heap w !! h = Some a ->
  let run :=
    scale_intensity_range acc (PyRef h) b_max b_min a_max a_min clip w in
  (forall r w', run = (Return r, w') ->
     ∃ res, heap w' !! r = Some res ∧
       shape res = shape a ∧ dtype res = dtype a ∧ cls res = cls a) ∧
  (Float.eqb (Float.sub a_max a_min) Float.zero = false ->
   cls a = numpy_ndarray ∨ can_cast_float32 (dtype a) = true ->
   accepts_launch acc (gridx_of (shape a), 1, 1) (128, 1, 1) = true ->
   ∃ r w', run = (Return r, w')).
Proof.
  intros Hh run. split.
  - intros r w' Hrun.
    destruct (returned_inv _ _ _ _ _ _ _ _ _ _ _ Hh Hrun)
      as (_ & _ & inp & out & _ & _ & _ & _ & _ & _ & _ & _ & Hres & _).
    eexists. split; [exact Hres|done].
  - intros Hne Hok Hacc.
    destruct (run_on_array acc w h a b_max b_min a_max a_min clip Hh Hne Hok)
      as (r & w' & Hrun & inp & out & _ & _ & _ & _ & _ & Hif).
    cbn zeta in Hif. cbn [request grid block] in Hif. rewrite Hacc in Hif.
    destruct Hif as (res & -> & _). by exists res, w'.
Qed.

Lemma returned_array_keeps_shape_type_location_witness :
  heap (world_of image8) !! 1%positive = Some image8 ∧
  ∃ res,
    heap (scale_intensity_range strict img (Float.of_Z 1) (Float.of_Z (-1))
            (Float.of_Z 255) (Float.of_Z 0) true (world_of image8)).2
      !! 5%positive = Some res ∧
    shape res = [3%N] ∧ dtype res = uint8 ∧ cls res = numpy_ndarray.
Proof.
  assert (H1 : heap (world_of image8) !! 1%positive = Some image8)
    by reflexivity.
  split; [exact H1|].
  apply (returned_array_keeps_shape_type_location strict (world_of image8)
           1%positive image8 (Float.of_Z 1) (Float.of_Z (-1))
           (Float.of_Z 255) (Float.of_Z 0) true H1).
  apply injective_projections; [vm_compute; reflexivity | reflexivity].
Defined.

(** ** C4: the degenerate range *)

(** Equal finite bounds are rejected first, whatever the input and the
    other parameters are. *)
Lemma equal_finite_bounds_rejected acc img b_max b_min a_max a_min clip w :
  IEEE.is_finite a_max = true ->
  IEEE.is_finite a_min = true ->
  Float.eqb a_max a_min = true ->
  scale_intensity_range acc img b_max b_min a_max a_min clip w
    = (Raise same_range_error, log_error w same_range_error).
Proof.
  intros Hmax Hmin Heq. apply run_degenerate.
  destruct a_max as [s1| | |s1 m1 e1], a_min as [s2| | |s2 m2 e2];
    try done.
  - by destruct s1, s2.
  - destruct s2; cbv in Heq; congruence.
  - assert (S754_finite s1 m1 e1 = S754_finite s2 m2 e2) as ->.
    { unfold Float.eqb, SFeqb in Heq. cbn in Heq.
      change (Pos.compare_cont Eq m1 m2) with (m1 ?= m2)%positive in Heq.
      destruct s1, s2; try done;
        destruct (Z.compare_spec e1 e2); try done;
        destruct (Pos.compare_spec m1 m2); try done; congruence. }
    by rewrite Float_sub_self.
Qed.

(** C4, at the failing input: with a_max = a_min = +infinity the bounds are
    equal, yet a_max - a_min is NaN, which is not 0.0; the call is not
    rejected and returns an array of NaN. *)
Lemma equal_infinite_bounds_not_rejected :
  Float.eqb Float.inf Float.inf = true ∧
  Float.sub Float.inf Float.inf = S754_nan ∧
  (scale_intensity_range strict img (Float.of_Z 1) (Float.of_Z 0)
     Float.inf Float.inf false (world_of ramp32)).1 = Return 2%positive ∧
  data <$>
    heap (scale_intensity_range strict img (Float.of_Z 1) (Float.of_Z 0)
            Float.inf Float.inf false (world_of ramp32)).2 !! 2%positive
  = Some [SFloat S754_nan; SFloat S754_nan; SFloat S754_nan].
Proof. by vm_compute. Qed.

(** ** C5: inputs that are not arrays *)

(** C5, as stated, fails: for a string and equal bounds the range check,
    which comes first, raises its ValueError and no TypeError is seen. *)
Lemma non_array_with_equal_bounds_is_range_error :
  refers_to_array (world_of ramp32) (PyStr "image") = None ∧
  (scale_intensity_range strict (PyStr "image") (Float.of_Z 1)
     (Float.of_Z 0) (Float.of_Z 1) (Float.of_Z 1) false (world_of ramp32)).1
  = Raise (ValueError "Original intensity range min and max are same").
Proof. by vm_compute. Qed.

(** C5, amended.  For every input value that is not a recognized array the
    call raises before any compute (no object is allocated, nothing is
    launched): the TypeError when a_max - a_min is not 0, and the
    ValueError of the degenerate range, which is checked first, when it
    is. *)
Theorem non_array_input_rejected acc w img b_max b_min a_max a_min clip :
  refers_to_array w img = None ->
  ∃ e,
    scale_intensity_range acc img b_max b_min a_max a_min clip w
      = (Raise e, log_error w e) ∧
    e = (if Float.eqb (Float.sub a_max a_min) Float.zero
         then same_range_error else not_an_array_error) ∧
    heap (log_error w e) = heap w ∧
    launches (log_error w e) = launches w.
Proof.
  intros Himg.
  destruct (Float.eqb (Float.sub a_max a_min) Float.zero) eqn:Hne;
    eexists; (split; [|done]).
  - by apply run_degenerate.
  - by apply run_not_an_array.
Qed.

Lemma non_array_input_rejected_witness :
  refers_to_array (world_of ramp32) (PyFloat (Float.of_Z 7)) = None ∧
  ∃ e,
    scale_intensity_range strict (PyFloat (Float.of_Z 7)) (Float.of_Z 1)
      (Float.of_Z 0) (Float.of_Z 3) (Float.of_Z 1) false (world_of ramp32)
    = (Raise e, log_error (world_of ramp32) e) ∧
    e = not_an_array_error.
Proof.
  assert (H : refers_to_array (world_of ramp32) (PyFloat (Float.of_Z 7))
              = None) by reflexivity.
  split; [exact H|].
  destruct (non_array_input_rejected strict (world_of ramp32)
              (PyFloat (Float.of_Z 7)) (Float.of_Z 1) (Float.of_Z 0)
              (Float.of_Z 3) (Float.of_Z 1) false H) as (e & Hrun & He & _).
  exists e. split; [exact Hrun | exact He].
Defined.

(** ** C6: the clamp law *)


(** The same with everyday bounds: scaled to [0, 0.1] with clip, the
    element 1.0 becomes the binary32 nearest to 0.1, which is above the
    binary64 0.1 that was passed as b_max. *)
Lemma clipped_element_above_one_tenth :
  let b_max := Float.div (Float.of_Z 1) (Float.of_Z 10) in
  ∃ f,
    data <$>
      heap (scale_intensity_range strict img b_max (Float.of_Z 0)
              (Float.of_Z 1) (Float.of_Z 0) true (world_of unit32)).2
        !! 2%positive
    = Some [SFloat f] ∧
    SFltb b_max (Float.widen f) = true.
Proof. eexists. by vm_compute. Qed.

(** The element types other than float32: the kernel's values are cast
    back, and the cast can leave the interval.  An 8-bit image clipped to
    [0.5, 0.7] comes back as zeros. *)
Lemma cast_back_leaves_the_interval :
  let b_min := Float.div (Float.of_Z 1) (Float.of_Z 2) in
  let b_max := Float.div (Float.of_Z 7) (Float.of_Z 10) in
  let run :=
    scale_intensity_range strict img b_max b_min (Float.of_Z 255)
      (Float.of_Z 0) true (world_of device_image8) in
  run.1 = Return 4%positive ∧
  data <$> heap run.2 !! 4%positive = Some [SInt 0; SInt 0; SInt 0].
Proof. by vm_compute. Qed.

(** With the bounds -inf and +inf the kernel is handed the same arguments
    whether clip is true or false, and no clamping is applied: a NaN
    element stays NaN. *)
Lemma nan_kept_between_infinite_bounds :
  let run clip :=
    scale_intensity_range strict img Float.inf Float.neg_inf (Float.of_Z 1)
      (Float.of_Z 0) clip (world_of nan32) in
  launches (run true).2 = launches (run false).2 ∧
  (run true).1 = Return 2%positive ∧
  data <$> heap (run true).2 !! 2%positive = Some [SFloat S754_nan].
Proof. by vm_compute. Qed.



(** ** C7: the identity law *)

(** C7, as stated, fails: a_max = 1e308 and a_min = -1e308 are different
    and finite, but their difference overflows to +infinity, the scale
    factor infinity / infinity is NaN, and the element 1.0 comes back as
    NaN. *)
Lemma identity_lost_when_range_overflows :
  Float.eqb (Float.of_Z (10 ^ 308)) (Float.of_Z (- 10 ^ 308)) = false ∧
  Float.sub (Float.of_Z (10 ^ 308)) (Float.of_Z (- 10 ^ 308))
  = S754_infinity false ∧
  (scale_intensity_range strict img (Float.of_Z (10 ^ 308))
     (Float.of_Z (- 10 ^ 308)) (Float.of_Z (10 ^ 308))
     (Float.of_Z (- 10 ^ 308)) false (world_of unit32)).1
  = Return 2%positive ∧
  data <$>
    heap (scale_intensity_range strict img (Float.of_Z (10 ^ 308))
            (Float.of_Z (- 10 ^ 308)) (Float.of_Z (10 ^ 308))
            (Float.of_Z (- 10 ^ 308)) false (world_of unit32)).2
      !! 2%positive
  = Some [SFloat S754_nan] ∧
  data unit32 = [SFloat Float32.one].
Proof. by vm_compute. Qed.

(** The law does not extend to wider element types: a host array of
    binary64 values goes through binary32, and 1e300 comes back as
    +infinity. *)
Lemma identity_lost_on_wide_types :
  can_cast_float32 (dtype wide64) = false ∧
  data <$>
    heap (scale_intensity_range strict img (Float.of_Z 1) (Float.of_Z 0)
            (Float.of_Z 1) (Float.of_Z 0) false (world_of wide64)).2
      !! 5%positive
  = Some [SFloat (S754_infinity false)].
Proof. by vm_compute. Qed.

(** C7, amended.  For every well-formed array of an element type that
    casts safely to float32 (booleans, integers of 8 and 16 bits, binary16
    and binary32 values), on the host or on the accelerator, with fewer
    than 2^31 elements, and every finite a_min and a_max whose difference
    is finite and not zero (it does not overflow),
    scale_intensity_range(img, a_max, a_min, a_max, a_min, clip=false)
    returns an array whose elements are exactly those of img: the derived
    coefficients are x = 1 and y = 0. *)
Theorem identity_on_safely_cast_arrays acc w h a a_max a_min s m e :
  heap w !! h = Some a ->
  well_formed a ->
  np_prod (shape a) < 2 ^ 31 ->
  can_cast_float32 (dtype a) = true ->
  forallb (well_typed (dtype a)) (data a) = true ->
  IEEE.is_finite a_min = true ->
  Float.valid a_min = true ->
  Float.sub a_max a_min = S754_finite s m e ->
  accepts_launch acc (gridx_of (shape a), 1, 1) (128, 1, 1) = true ->
  ∃ r w' res,
    scale_intensity_range acc (PyRef h) a_max a_min a_max a_min false w
      = (Return r, w') ∧
    heap w' !! r = Some res ∧
    data res = data a ∧
    shape res = shape a ∧ dtype res = dtype a ∧ cls res = cls a.
Proof.
  intros Hh Hwf Hsmall Hcast Hall Hfin Hval Hdiff Hacc.
  assert (Hne : Float.eqb (Float.sub a_max a_min) Float.zero = false).
  { rewrite Hdiff. by destruct s. }
  destruct (run_on_array acc w h a a_max a_min a_max a_min false Hh Hne
              (or_intror Hcast))
    as (r & w' & Hrun & inp & out & _ & _ & _ & _ & _ & Hif).
  cbn zeta in Hif. cbn [request grid block] in Hif. rewrite Hacc in Hif.
  destruct Hif as (k & -> & _ & _ & Hres & _).
  eexists k, w', _. split; [exact Hrun|]. split; [exact Hres|].
  cbn [data shape dtype cls]. split; [|done].
  destruct (roundtrip_list acc (dtype a) (data a) Hcast Hall)
    as [Hall32 Hback].
  assert (Hout : kernel_output acc a
                   (request a inp out a_max a_min a_max a_min false)
                 = map (astype_scalar acc float32) (data a)).
  { destruct (kernel_output_request acc a inp out a_max a_min a_max a_min
                false Hwf Hsmall) as [_ Hlook].
    cbn zeta in Hlook. apply list_eq. intros i. rewrite Hlook.
    cbn [request arg_x arg_y arg_b_min arg_b_max negb].
    destruct (identity_coefficients a_max a_min s m e Hfin Hval Hdiff)
      as [-> ->].
    change (Float32.np_float32 Float.one) with Float32.one.
    change (Float32.np_float32 Float.zero) with Float32.zero.
    change (Float32.np_float32 Float.neg_inf) with (S754_infinity true).
    change (Float32.np_float32 Float.inf) with (S754_infinity false).
    rewrite (working_data_cast acc a Hall).
    destruct (map (astype_scalar acc float32) (data a) !! i) as [u|] eqn:Hu;
      [|done].
    cbn [fmap option_fmap option_map]. f_equal. apply written_identity.
    rewrite forallb_forall in Hall32. apply Hall32.
    apply list_elem_of_In. by eapply list_elem_of_lookup_2. }
  unfold returned_data. rewrite Hout. case_bool_decide as Hd; [done|].
  rewrite Hd in Hall. by apply astype_float32_id.
Qed.

Lemma identity_on_safely_cast_arrays_witness :
  heap (world_of image8) !! 1%positive = Some image8 ∧
  well_formed image8 ∧
  np_prod (shape image8) < 2 ^ 31 ∧
  can_cast_float32 (dtype image8) = true ∧
  forallb (well_typed (dtype image8)) (data image8) = true ∧
  IEEE.is_finite (Float.of_Z 0) = true ∧
  Float.valid (Float.of_Z 0) = true ∧
  Float.sub (Float.of_Z 255) (Float.of_Z 0)
  = S754_finite false 8972014882652160 (-45) ∧
  accepts_launch strict (gridx_of (shape image8), 1, 1) (128, 1, 1) = true ∧
  ∃ r w' res,
    scale_intensity_range strict img (Float.of_Z 255) (Float.of_Z 0)
      (Float.of_Z 255) (Float.of_Z 0) false (world_of image8)
    = (Return r, w') ∧
    heap w' !! r = Some res ∧
    data res = [SInt 0; SInt 128; SInt 255].
Proof.
  assert (H1 : heap (world_of image8) !! 1%positive = Some image8)
    by reflexivity.
  assert (H2 : well_formed image8) by reflexivity.
  assert (H3 : np_prod (shape image8) < 2 ^ 31) by reflexivity.
  assert (H4 : can_cast_float32 (dtype image8) = true) by reflexivity.
  assert (H5 : forallb (well_typed (dtype image8)) (data image8) = true)
    by reflexivity.
  assert (H6 : IEEE.is_finite (Float.of_Z 0) = true) by reflexivity.
  assert (H7 : Float.valid (Float.of_Z 0) = true) by reflexivity.
  assert (H8 : Float.sub (Float.of_Z 255) (Float.of_Z 0)
               = S754_finite false 8972014882652160 (-45)) by reflexivity.
  assert (H9 : accepts_launch strict (gridx_of (shape image8), 1, 1)
                 (128, 1, 1) = true) by reflexivity.
  split; [exact H1|]. split; [exact H2|]. split; [exact H3|].
  split; [exact H4|]. split; [exact H5|]. split; [exact H6|].
  split; [exact H7|]. split; [exact H8|]. split; [exact H9|].
  destruct (identity_on_safely_cast_arrays strict (world_of image8)
              1%positive image8 (Float.of_Z 255) (Float.of_Z 0) false
              8972014882652160%positive (-45) H1 H2 H3 H4 H5 H6 H7 H8 H9)
    as (r & w' & res & Hrun & Hres & Hdata & _).
  exists r, w', res. split; [exact Hrun|]. split; [exact Hres|]. exact Hdata.
Defined.
(** ** C8: launch geometry *)




(** ** C9: the input is left alone *)

(** C9.  For every call, whatever its outcome: every object of the heap
    before the call, the input array among them, is the same object after
    it (same contents, element type, shape and location); and when the
    call returns, the returned array is an object that did not exist
    before the call, so it shares nothing with the input. *)
Theorem input_untouched_output_fresh
    acc w img b_max b_min a_max a_min clip :
  heap w ⊆
    heap (scale_intensity_range acc img b_max b_min a_max a_min clip w).2 ∧
  forall r,
    (scale_intensity_range acc img b_max b_min a_max a_min clip w).1
      = Return r ->
    heap w !! r = None ∧
    is_Some
      (heap (scale_intensity_range acc img b_max b_min a_max a_min clip w).2
         !! r).
Proof.
  destruct (Float.eqb (Float.sub a_max a_min) Float.zero) eqn:Hne.
  { rewrite run_degenerate by done. by split. }
  destruct (refers_to_array w img) as [[h a]|] eqn:Himg.
  2: { rewrite run_not_an_array by done. by split. }
  assert (img = PyRef h ∧ heap w !! h = Some a) as [-> Hh].
  { destruct img as [h'| | | |]; try done. cbn in Himg.
    destruct (heap w !! h') eqn:E; naive_solver. }
  destruct (cls a) eqn:Hcls, (can_cast_float32 (dtype a)) eqn:Hcast.
  4: { destruct (run_unsafe_cast acc w h a b_max b_min a_max a_min clip
                   Hh Hne Hcls Hcast) as (w' & -> & Hsub & _).
       by split. }
  all: destruct (run_on_array acc w h a b_max b_min a_max a_min clip Hh Hne)
         as (r & w' & -> & inp & out & Hsub & _ & _ & _ & _ & Hif);
       [ rewrite Hcls; auto | ];
       cbn zeta in Hif; cbn [fst snd]; (split; [done|]);
       intros r' ->;
       destruct (accepts_launch _ _ _);
       [ destruct Hif as (res & [= <-] & Hfresh & _ & Hres & _);
         by rewrite Hres
       | by destruct Hif as (msg & ? & _) ].
Qed.

(** ** C10: arrays with no element *)

(** C10, as stated, fails: the grid width computed for an array with no
    element is 0, but whether the call raises is the launch primitive's
    decision, not the operation's.  With a launch wrapper that raises every
    dimension to at least 1 before the driver sees it, the call returns an
    empty array of the shape of the input. *)
Lemma empty_array_returned_by_lenient_launcher :
  np_prod (shape empty32) = 0 ∧
  gridx_of (shape empty32) = 0 ∧
  (scale_intensity_range lenient img (Float.of_Z 1) (Float.of_Z 0)
     (Float.of_Z 255) (Float.of_Z 0) false (world_of empty32)).1
  = Return 2%positive ∧
  heap (scale_intensity_range lenient img (Float.of_Z 1) (Float.of_Z 0)
          (Float.of_Z 255) (Float.of_Z 0) false (world_of empty32)).2
    !! 2%positive
  = Some (array cupy_ndarray float32 [0%N; 4%N] []).
Proof. by vm_compute. Qed.

(** C10, amended.  For every otherwise-valid input array whose total
    element count is 0, one launch is requested and its grid width is 0;
    the call raises the driver's error when the launch primitive refuses
    that geometry, and returns an empty array of the shape, element type
    and location of the input when it accepts it. *)
Theorem empty_array_outcome_is_the_launchers
    acc w h a b_max b_min a_max a_min clip :
  heap w !! h = Some a ->
  np_prod (shape a) = 0 ->
  Float.eqb (Float.sub a_max a_min) Float.zero = false ->
  cls a = numpy_ndarray ∨ can_cast_float32 (dtype a) = true ->
  ∃ l r w',
    scale_intensity_range acc (PyRef h) b_max b_min a_max a_min clip w
      = (r, w') ∧
    launches w' = launches w ++ [l] ∧
    grid l = (0, 1, 1) ∧ block l = (128, 1, 1) ∧
    if accepts_launch acc (0, 1, 1) (128, 1, 1)
    then ∃ k res,
           r = Return k ∧ heap w' !! k = Some res ∧
           shape res = shape a ∧ dtype res = dtype a ∧ cls res = cls a ∧
           data res = []
    else ∃ msg, r = Raise (CUDADriverError msg).
Proof.
  intros Hh Hzero Hne Hok.
  destruct (run_on_array acc w h a b_max b_min a_max a_min clip Hh Hne Hok)
    as (r & w' & Hrun & inp & out & _ & _ & _ & _ & Hl & Hif).
  assert (Hg : gridx_of (shape a) = 0)
    by (rewrite gridx_of_div by (rewrite Hzero; lia); by rewrite Hzero).
  cbn zeta in Hif. cbn [request grid block] in Hif. rewrite Hg in Hif.
  eexists _, r, w'. split; [exact Hrun|]. split; [exact Hl|].
  split; [cbn [request grid]; by rewrite Hg|]. split; [reflexivity|].
  destruct (accepts_launch acc (0, 1, 1) (128, 1, 1)).
  - destruct Hif as (k & -> & _ & _ & Hres & _).
    eexists k, _. split; [reflexivity|]. split; [exact Hres|].
    cbn [shape dtype cls data]. split_and!; try done.
    unfold returned_data, kernel_output. cbn [request grid block fst].
    rewrite Hg, Hzero. unfold run_grid. rewrite (seqZ_nil 0 0) by lia.
    cbn. by case_bool_decide.
  - destruct Hif as (msg & -> & _). by exists msg.
Qed.

Lemma empty_array_outcome_is_the_launchers_witness :
  heap (world_of empty32) !! 1%positive = Some empty32 ∧
  np_prod (shape empty32) = 0 ∧
  Float.eqb (Float.sub (Float.of_Z 255) (Float.of_Z 0)) Float.zero = false ∧
  can_cast_float32 (dtype empty32) = true ∧
  ∃ l r w',
    scale_intensity_range strict img (Float.of_Z 1) (Float.of_Z 0)
      (Float.of_Z 255) (Float.of_Z 0) false (world_of empty32) = (r, w') ∧
    grid l = (0, 1, 1) ∧
    ∃ msg, r = Raise (CUDADriverError msg).
Proof.
  assert (H1 : heap (world_of empty32) !! 1%positive = Some empty32)
    by reflexivity.
  assert (H2 : np_prod (shape empty32) = 0) by reflexivity.
  assert (H3 : Float.eqb (Float.sub (Float.of_Z 255) (Float.of_Z 0))
                 Float.zero = false) by reflexivity.
  assert (H4 : can_cast_float32 (dtype empty32) = true) by reflexivity.
  split; [exact H1|]. split; [exact H2|]. split; [exact H3|].
  split; [exact H4|].
  destruct (empty_array_outcome_is_the_launchers strict (world_of empty32)
              1%positive empty32 (Float.of_Z 1) (Float.of_Z 0)
              (Float.of_Z 255) (Float.of_Z 0) false H1 H2 H3 (or_intror H4))
    as (l & r & w' & Hrun & _ & Hg & _ & Hif).
  exists l, r, w'. split; [exact Hrun|]. split; [exact Hg|]. exact Hif.
Defined.


(** * Further properties of [scale_intensity_range] *)

(** ** The paths of a call *)

(** Every call takes one of four paths: the range check fails; the value
    is not an array; the array is on the device and its element type is
    not accepted; or the array is processed. *)
Lemma run_cases acc w img b_max b_min a_max a_min clip :
  let run := scale_intensity_range acc img b_max b_min a_max a_min clip w in
  run = (Raise same_range_error, log_error w same_range_error) ∨
  run = (Raise not_an_array_error, log_error w not_an_array_error) ∨
  (∃ w', run = (Raise unsafe_cast_error, w') ∧
         heap w ⊆ heap w' ∧ launches w' = launches w ∧
         logged w' = logged w ++ ["[cucim] " +:+ str unsafe_cast_error]) ∨
  (∃ h a r w', img = PyRef h ∧ heap w !! h = Some a ∧ run = (r, w') ∧
               on_array acc w h a b_max b_min a_max a_min clip r w').
Proof.
  intros run. unfold run.
  destruct (Float.eqb (Float.sub a_max a_min) Float.zero) eqn:Hne.
  { left. by apply run_degenerate. }
  destruct (refers_to_array w img) as [[h a]|] eqn:Himg.
  2:{ right. left. by apply run_not_an_array. }
  assert (img = PyRef h ∧ heap w !! h = Some a) as [-> Hh].
  { destruct img as [h'| | | |]; try done. cbn in Himg.
    destruct (heap w !! h') eqn:E; [|done]. by injection Himg as -> ->. }
  right. right.
  destruct (cls a) eqn:Hcls.
  - right.
    destruct (run_on_array acc w h a b_max b_min a_max a_min clip Hh Hne
                ltac:(by left)) as (r & w' & Hrun & Hon).
    by exists h, a, r, w'.
  - destruct (can_cast_float32 (dtype a)) eqn:Hcast.
    + right.
      destruct (run_on_array acc w h a b_max b_min a_max a_min clip Hh Hne
                  ltac:(by right)) as (r & w' & Hrun & Hon).
      by exists h, a, r, w'.
    + left. by apply (run_unsafe_cast acc w h a).
Qed.

(** ** The error log *)

(** X1.  Whatever the arguments and the state, a call that raises an
    error e has appended exactly one record to the log, the text
    "[cucim] " followed by str(e), and the error that leaves the call is e
    itself; a call that returns has logged nothing. *)
Theorem failures_logged_once_and_reraised
    acc w img b_max b_min a_max a_min clip :
  let run := scale_intensity_range acc img b_max b_min a_max a_min clip w in
  match run.1 with
  | Return _ => logged run.2 = logged w
  | Raise e => logged run.2 = logged w ++ ["[cucim] " +:+ str e]
  end.
Proof.
  intros run.
  destruct (run_cases acc w img b_max b_min a_max a_min clip)
    as [H|[H|[(w' & H & _ & _ & Hlog)|(h & a & r & w' & _ & _ & H & Hon)]]];
    fold run in H; rewrite H; cbn [fst snd]; try done.
  destruct Hon as (inp & out & _ & _ & _ & _ & _ & Hacc). cbn zeta in Hacc.
  destruct (accepts_launch _ _ _).
  - by destruct Hacc as (res & -> & _ & _ & _ & Hlog).
  - by destruct Hacc as (msg & -> & Hlog).
Qed.

(** ** Launches *)

(** X2.  Whatever the arguments and the state, a call ends in one of four
    ways: it returns, or it raises ValueError, TypeError or the driver's
    launch error; it never fails on an attribute access.  A call that
    raises ValueError or TypeError has requested no kernel launch; a call
    that returns or raises the launch error has requested exactly one. *)
Theorem kernel_launched_once_after_validation
    acc w img b_max b_min a_max a_min clip :
  let run := scale_intensity_range acc img b_max b_min a_max a_min clip w in
  match run.1 with
  | Return _ | Raise (CUDADriverError _) =>
      ∃ l, launches run.2 = launches w ++ [l]
  | Raise (ValueError _) | Raise (TypeError _) =>
      launches run.2 = launches w
  | Raise (AttributeError _) => False
  end.
Proof.
  intros run.
  destruct (run_cases acc w img b_max b_min a_max a_min clip)
    as [H|[H|[(w' & H & _ & Hl & _)|(h & a & r & w' & _ & _ & H & Hon)]]];
    fold run in H; rewrite H; cbn [fst snd]; try done.
  destruct Hon as (inp & out & _ & _ & _ & _ & Hl & Hacc). cbn zeta in Hacc.
  destruct (accepts_launch _ _ _).
  - destruct Hacc as (res & -> & _). by eexists.
  - destruct Hacc as (msg & -> & _). by eexists.
Qed.

(** ** Without clip *)

(** X3.  With clip false the target bounds only enter through x and y:
    for every well-formed array of binary32 values with fewer than 2^31
    elements, every element v of the input comes back as v * x - y
    (binary32 arithmetic on the binary32 values of x and y), with no bound
    applied, whatever b_min and b_max are. *)
Theorem without_clip_elements_are_unbounded
    acc w h a b_max b_min a_max a_min r w' :
  heap w !! h = Some a ->
  dtype a = float32 ->
  forallb (well_typed float32) (data a) = true ->
  well_formed a ->
  np_prod (shape a) < 2 ^ 31 ->
  scale_intensity_range acc (PyRef h) b_max b_min a_max a_min false w
    = (Return r, w') ->
  let x := Float.div (Float.sub b_max b_min) (Float.sub a_max a_min) in
  let y := Float.sub (Float.mul a_min x) b_min in
  ∃ res,
    heap w' !! r = Some res ∧
    length (data res) = length (data a) ∧
    forall (i : nat) v, data a !! i = Some v ->
      data res !! i =
        Some (SFloat (Float32.sub
                        (Float32.mul (float_of v) (Float32.np_float32 x))
                        (Float32.np_float32 y))).
Proof.
  intros Hh Hd Hty Hwf Hsmall Hrun x y.
  destruct (returned_inv _ _ _ _ _ _ _ _ _ _ _ Hh Hrun)
    as (_ & _ & inp & out & _ & _ & _ & _ & _ & _ & _ & _ & Hres & _).
  cbn zeta in Hres.
  destruct (kernel_output_request acc a inp out b_max b_min a_max a_min false
              Hwf Hsmall) as [Hlen Hlook].
  eexists. split; [exact Hres|]. cbn [data]. unfold returned_data.
  rewrite Hd, bool_decide_eq_false_2 by (intros H; by apply H).
  split; [done|]. intros i v Hv. rewrite Hlook.
  rewrite working_data_cast by by rewrite Hd.
  rewrite astype_float32_id by done. rewrite Hv.
  cbn [fmap option_fmap option_map].
  unfold written, scale_elem.
  cbn [request arg_x arg_y arg_b_min arg_b_max negb].
  by rewrite clamp_unbounded.
Qed.

Lemma without_clip_elements_are_unbounded_witness :
  let w := world_of ramp32 in
  let run :=
    scale_intensity_range strict img (Float.of_Z 2) (Float.of_Z 0)
      (Float.of_Z 1) (Float.of_Z 0) false w in
  heap w !! 1%positive = Some ramp32 ∧
  dtype ramp32 = float32 ∧
  forallb (well_typed float32) (data ramp32) = true ∧
  well_formed ramp32 ∧
  np_prod (shape ramp32) < 2 ^ 31 ∧
  run = (Return 2%positive, run.2) ∧
  ∃ res, heap run.2 !! 2%positive = Some res ∧
         length (data res) = length (data ramp32).
Proof.
  intros w run.
  assert (H1 : heap w !! 1%positive = Some ramp32) by reflexivity.
  assert (H2 : dtype ramp32 = float32) by reflexivity.
  assert (H3 : forallb (well_typed float32) (data ramp32) = true)
    by (vm_compute; reflexivity).
  assert (H4 : well_formed ramp32) by reflexivity.
  assert (H5 : np_prod (shape ramp32) < 2 ^ 31) by reflexivity.
  assert (H6 : run = (Return 2%positive, run.2)).
  { apply injective_projections; [vm_compute; reflexivity | reflexivity]. }
  split_and!; [exact H1 | exact H2 | exact H3 | exact H4 | exact H5
              | exact H6 |].
  destruct (without_clip_elements_are_unbounded strict w 1%positive ramp32
              (Float.of_Z 2) (Float.of_Z 0) (Float.of_Z 1) (Float.of_Z 0)
              2%positive run.2 H1 H2 H3 H4 H5 H6) as (res & Hres & Hlen & _).
  exists res. split; [exact Hres | exact Hlen].
Defined.

(** ** The buffers of a call *)

Ltac buffers_done :=
  unfold buffers; cbn [heap with_heap launches logged log_error];
  eexists; split; [reflexivity|]; cbn [arg_in arg_out];
  first
    [ rewrite bool_decide_eq_false_2 by (intros (? & ? & ?); congruence);
      split; [congruence|done]
    | rewrite bool_decide_eq_true_2 by done;
      split; [done|]; intros ? [= <-]; split; [done|];
      eexists; by rewrite ?insert_insert_eq
    | rewrite bool_decide_eq_true_2 by done;
      split; [done|]; intros ? [=] ].

Lemma scale_intensity_range_buffers acc w h a b_max b_min a_max a_min clip :
  heap w !! h = Some a ->
  Float.eqb (Float.sub a_max a_min) Float.zero = false ->
  cls a = numpy_ndarray ∨ can_cast_float32 (dtype a) = true ->
  wp (scale_intensity_range acc (PyRef h) b_max b_min a_max a_min clip) w
     (buffers w h a).
Proof.
  intros Hh Hne Hok.
  unfold scale_intensity_range. rewrite Hne.
  apply wp_logging_errors, wp_bind.
  unfold array_of at 1. unfold wp at 1. cbn [fst snd]. rewrite Hh.
  cbn [fmap option_fmap option_map].
  destruct (bool_decide (dtype a ≠ float32)) eqn:HD;
  destruct (cls a) eqn:Hcls.
  - repeat step.
    rewrite bool_decide_eq_false_2 by (intros H; by apply H). repeat step.
    destruct (accepts_launch _ _ _) eqn:Hacc; repeat step; buffers_done.
  - destruct Hok as [|Hok]; [done|].
    assert (HD' : dtype a ≠ float32) by by apply bool_decide_eq_true in HD.
    repeat step. destruct (c_contiguous a) eqn:Hcontig; repeat step;
      rewrite Hok; cbn [negb]; repeat step;
      destruct (accepts_launch _ _ _) eqn:Hacc; repeat step; buffers_done.
  - repeat step.
    rewrite bool_decide_eq_false_2 by (intros H; by apply H). repeat step.
    destruct (accepts_launch _ _ _) eqn:Hacc; repeat step; buffers_done.
  - pose proof (not_ne_float32 _ HD) as Hd.
    repeat step. destruct (c_contiguous a) eqn:Hcontig; repeat step;
      destruct (accepts_launch _ _ _) eqn:Hacc; repeat step; buffers_done.
Qed.

(** X4.  A contiguous device array of binary32 values is read in place:
    when the call returns, the kernel's input argument is the caller's
    array itself, its output argument is the returned array, and the
    returned array is the only object the call has allocated (the heap
    after the call is the heap before it plus that one new object). *)
Theorem contiguous_float32_device_array_is_read_in_place
    acc w h a b_max b_min a_max a_min clip r w' :
  heap w !! h = Some a ->
  cls a = cupy_ndarray ->
  dtype a = float32 ->
  c_contiguous a = true ->
  scale_intensity_range acc (PyRef h) b_max b_min a_max a_min clip w
    = (Return r, w') ->
  ∃ l res,
    launches w' = launches w ++ [l] ∧
    arg_in l = h ∧ arg_out l = r ∧
    heap w !! r = None ∧
    heap w' = <[r := res]> (heap w).
Proof.
  intros Hh Hcls Hd Hcontig Hrun.
  destruct (returned_inv _ _ _ _ _ _ _ _ _ _ _ Hh Hrun)
    as (Hne & Hok & _ & _ & _ & _ & _ & Hr & _).
  pose proof (scale_intensity_range_buffers acc w h a b_max b_min a_max a_min
                clip Hh Hne Hok) as H.
  unfold wp in H. rewrite Hrun in H. cbn [fst snd] in H.
  destruct H as (l & Hl & H).
  rewrite bool_decide_eq_true_2 in H by done.
  destruct H as [Hin H]. destruct (H r eq_refl) as (Hout & res & Hheap).
  by exists l, res.
Qed.

Lemma contiguous_float32_device_array_is_read_in_place_witness :
  let w := world_of ramp32 in
  let run :=
    scale_intensity_range strict img (Float.of_Z 2) (Float.of_Z 0)
      (Float.of_Z 1) (Float.of_Z 0) true w in
  heap w !! 1%positive = Some ramp32 ∧
  cls ramp32 = cupy_ndarray ∧
  dtype ramp32 = float32 ∧
  c_contiguous ramp32 = true ∧
  run = (Return 2%positive, run.2) ∧
  ∃ l res, launches run.2 = [l] ∧ arg_in l = 1%positive ∧
           arg_out l = 2%positive ∧
           heap run.2 = <[2%positive := res]> (heap w).
Proof.
  intros w run.
  assert (H1 : heap w !! 1%positive = Some ramp32) by reflexivity.
  assert (H2 : cls ramp32 = cupy_ndarray) by reflexivity.
  assert (H3 : dtype ramp32 = float32) by reflexivity.
  assert (H4 : c_contiguous ramp32 = true) by reflexivity.
  assert (H5 : run = (Return 2%positive, run.2)).
  { apply injective_projections; [vm_compute; reflexivity | reflexivity]. }
  split_and!; [exact H1 | exact H2 | exact H3 | exact H4 | exact H5 |].
  destruct (contiguous_float32_device_array_is_read_in_place strict w
              1%positive ramp32 (Float.of_Z 2) (Float.of_Z 0) (Float.of_Z 1)
              (Float.of_Z 0) true 2%positive run.2 H1 H2 H3 H4 H5)
    as (l & res & Hl & Hin & Hout & _ & Hheap).
  exists l, res.
  split_and!; [exact Hl | exact Hin | exact Hout | exact Hheap].
Defined.

(** X5.  Every other accepted array (a host array, a device array of
    another element type, a device array that is not contiguous) is not
    handed to the kernel: when the range is not degenerate, the kernel's
    input argument is an object the call has allocated, a device array of
    binary32 values of the input's shape, and the caller's array is still
    in place, unchanged. *)
Theorem other_arrays_are_read_from_a_new_buffer
    acc w h a b_max b_min a_max a_min clip :
  heap w !! h = Some a ->
  Float.eqb (Float.sub a_max a_min) Float.zero = false ->
  cls a = numpy_ndarray ∨ can_cast_float32 (dtype a) = true ->
  ¬ (cls a = cupy_ndarray ∧ dtype a = float32 ∧ c_contiguous a = true) ->
  let run :=
    scale_intensity_range acc (PyRef h) b_max b_min a_max a_min clip w in
  ∃ l c,
    launches run.2 = launches w ++ [l] ∧
    arg_in l ≠ h ∧
    heap w !! arg_in l = None ∧
    heap run.2 !! arg_in l = Some c ∧
    cls c = cupy_ndarray ∧ dtype c = float32 ∧ shape c = shape a ∧
    heap run.2 !! h = Some a.
Proof.
  intros Hh Hne Hok Hnot run.
  pose proof (scale_intensity_range_buffers acc w h a b_max b_min a_max a_min
                clip Hh Hne Hok) as H.
  pose proof (scale_intensity_range_array acc w h a b_max b_min a_max a_min
                clip Hh Hne Hok) as H'.
  unfold wp in H, H'. fold run in H, H'.
  destruct H as (l & Hl & H).
  rewrite bool_decide_eq_false_2 in H by done. destruct H as [Hin Hfresh].
  destruct H' as (inp & out & Hsub & _ & _ & (c & Hc & Hcc & Hcd & Hcs & _)
                  & Hl' & _).
  cbn zeta in Hl'. rewrite Hl in Hl'. apply app_inj_tail in Hl' as [_ ->].
  cbn [request arg_in] in *.
  exists (request a inp out b_max b_min a_max a_min clip), c.
  split_and!; try done. by eapply lookup_weaken.
Qed.

Lemma other_arrays_are_read_from_a_new_buffer_witness :
  let w := world_of image8 in
  let run :=
    scale_intensity_range strict img (Float.of_Z 1) (Float.of_Z (-1))
      (Float.of_Z 255) (Float.of_Z 0) true w in
  heap w !! 1%positive = Some image8 ∧
  Float.eqb (Float.sub (Float.of_Z 255) (Float.of_Z 0)) Float.zero = false ∧
  (cls image8 = numpy_ndarray ∨ can_cast_float32 (dtype image8) = true) ∧
  ¬ (cls image8 = cupy_ndarray ∧ dtype image8 = float32 ∧
     c_contiguous image8 = true) ∧
  ∃ l c, launches run.2 = [l] ∧ arg_in l ≠ 1%positive ∧
         heap run.2 !! arg_in l = Some c ∧ dtype c = float32.
Proof.
  intros w run.
  assert (H1 : heap w !! 1%positive = Some image8) by reflexivity.
  assert (H2 : Float.eqb (Float.sub (Float.of_Z 255) (Float.of_Z 0))
                 Float.zero = false) by (vm_compute; reflexivity).
  assert (H3 : cls image8 = numpy_ndarray ∨
               can_cast_float32 (dtype image8) = true)
    by (left; reflexivity).
  assert (H4 : ¬ (cls image8 = cupy_ndarray ∧ dtype image8 = float32 ∧
                  c_contiguous image8 = true))
    by (intros (H & _); discriminate H).
  split_and!; [exact H1 | exact H2 | exact H3 | exact H4 |].
  destruct (other_arrays_are_read_from_a_new_buffer strict w 1%positive
              image8 (Float.of_Z 1) (Float.of_Z (-1)) (Float.of_Z 255)
              (Float.of_Z 0) true H1 H2 H3 H4)
    as (l & c & Hl & Hin & _ & Hc & _ & Hd & _).
  exists l, c. split_and!; [exact Hl | exact Hin | exact Hc | exact Hd].
Defined.

(** ** Host and device inputs *)

(** X6.  A host array and a device array with the same element type,
    shape and elements (well typed) are scaled to the same values:
    whenever the call on the device array returns, the call on the host
    array with the same parameters returns too, and the two returned
    arrays have the same element type, shape and elements; the first is a
    host array, the second a device array. *)
Theorem host_and_device_inputs_agree
    acc w1 w2 h1 h2 a1 a2 b_max b_min a_max a_min clip r2 w2' :
  heap w1 !! h1 = Some a1 ->
  heap w2 !! h2 = Some a2 ->
  cls a1 = numpy_ndarray ->
  cls a2 = cupy_ndarray ->
  dtype a1 = dtype a2 ->
  shape a1 = shape a2 ->
  data a1 = data a2 ->
  forallb (well_typed (dtype a2)) (data a2) = true ->
  scale_intensity_range acc (PyRef h2) b_max b_min a_max a_min clip w2
    = (Return r2, w2') ->
  ∃ r1 w1' res1 res2,
    scale_intensity_range acc (PyRef h1) b_max b_min a_max a_min clip w1
      = (Return r1, w1') ∧
    heap w1' !! r1 = Some res1 ∧
    heap w2' !! r2 = Some res2 ∧
    cls res1 = numpy_ndarray ∧ cls res2 = cupy_ndarray ∧
    dtype res1 = dtype res2 ∧ shape res1 = shape res2 ∧
    data res1 = data res2.
Proof.
  intros Hh1 Hh2 Hc1 Hc2 Hd Hs Hdat Hty Hrun2.
  destruct (returned_inv _ _ _ _ _ _ _ _ _ _ _ Hh2 Hrun2)
    as (Hne & _ & inp2 & out2 & Hacc2 & _ & _ & _ & _ & _ & _ & _ & Hres2 & _).
  cbn zeta in *.
  destruct (run_on_array acc w1 h1 a1 b_max b_min a_max a_min clip Hh1 Hne
              ltac:(by left))
    as (r & w1' & Hrun1 & inp1 & out1 & _ & _ & _ & _ & _ & Hacc1).
  cbn zeta in Hacc1.
  assert (Hw : working_data acc a1 = working_data acc a2).
  { rewrite !working_data_cast; [by rewrite Hdat|done|by rewrite Hd, Hdat]. }
  unfold request in Hacc1 at 1 2. unfold request in Hacc2.
  cbn [grid block] in Hacc1, Hacc2. rewrite Hs, Hacc2 in Hacc1.
  destruct Hacc1 as (r1 & -> & _ & _ & Hres1 & _).
  eexists r1, w1', _, _. split_and!; [done|exact Hres1|exact Hres2|..];
    cbn [cls dtype shape data]; try done.
  unfold returned_data, kernel_output, request.
  cbn [grid block arg_x arg_y arg_b_min arg_b_max arg_total_size].
  by rewrite Hw, Hd, Hs.
Qed.

Lemma host_and_device_inputs_agree_witness :
  let w1 := world_of image8 in
  let w2 := world_of device_image8 in
  let run2 :=
    scale_intensity_range strict img (Float.of_Z 1) (Float.of_Z (-1))
      (Float.of_Z 255) (Float.of_Z 0) true w2 in
  heap w1 !! 1%positive = Some image8 ∧
  heap w2 !! 1%positive = Some device_image8 ∧
  cls image8 = numpy_ndarray ∧
  cls device_image8 = cupy_ndarray ∧
  dtype image8 = dtype device_image8 ∧
  shape image8 = shape device_image8 ∧
  data image8 = data device_image8 ∧
  forallb (well_typed (dtype device_image8)) (data device_image8) = true ∧
  run2 = (Return 4%positive, run2.2) ∧
  ∃ r1 w1' res1 res2,
    scale_intensity_range strict img (Float.of_Z 1) (Float.of_Z (-1))
      (Float.of_Z 255) (Float.of_Z 0) true w1 = (Return r1, w1') ∧
    heap w1' !! r1 = Some res1 ∧
    heap run2.2 !! 4%positive = Some res2 ∧
    data res1 = data res2.
Proof.
  intros w1 w2 run2.
  assert (H1 : heap w1 !! 1%positive = Some image8) by reflexivity.
  assert (H2 : heap w2 !! 1%positive = Some device_image8) by reflexivity.
  assert (H3 : cls image8 = numpy_ndarray) by reflexivity.
  assert (H4 : cls device_image8 = cupy_ndarray) by reflexivity.
  assert (H5 : dtype image8 = dtype device_image8) by reflexivity.
  assert (H6 : shape image8 = shape device_image8) by reflexivity.
  assert (H7 : data image8 = data device_image8) by reflexivity.
  assert (H8 : forallb (well_typed (dtype device_image8))
                 (data device_image8) = true) by (vm_compute; reflexivity).
  assert (H9 : run2 = (Return 4%positive, run2.2)).
  { apply injective_projections; [vm_compute; reflexivity | reflexivity]. }
  split_and!; [exact H1 | exact H2 | exact H3 | exact H4 | exact H5
              | exact H6 | exact H7 | exact H8 | exact H9 |].
  destruct (host_and_device_inputs_agree strict w1 w2 1%positive 1%positive
              image8 device_image8 (Float.of_Z 1) (Float.of_Z (-1))
              (Float.of_Z 255) (Float.of_Z 0) true 4%positive run2.2
              H1 H2 H3 H4 H5 H6 H7 H8 H9)
    as (r1 & w1' & res1 & res2 & Hrun1 & Hres1 & Hres2 & _ & _ & _ & _
        & Hdata).
  exists r1, w1', res1, res2.
  split_and!; [exact Hrun1 | exact Hres1 | exact Hres2 | exact Hdata].
Defined.

(** ** No uninitialised memory in the result *)

Lemma astype_scalar_cast_undefined acc1 acc2 t v :
  cast_undefined acc1 = cast_undefined acc2 ->
  astype_scalar acc1 t v = astype_scalar acc2 t v.
Proof.
  intros H. unfold astype_scalar, as_int, float_to_int. by rewrite H.
Qed.

(** X7.  The returned array is a function of the input array and the
    parameters alone: for a well-formed array of fewer than 2^31
    elements, two returning calls with the same parameters, in any two
    states and on any two accelerators that agree on out-of-range
    float-to-integer casts, return equal arrays, whatever the memory that
    cupy.empty hands out contains and wherever the objects are
    allocated.  (The kernel, modelled from the spec, overwrites every
    element of the buffer.) *)
Theorem result_independent_of_uninitialised_memory
    acc1 acc2 w1 w2 h1 h2 a b_max b_min a_max a_min clip r1 w1' r2 w2' :
  cast_undefined acc1 = cast_undefined acc2 ->
  heap w1 !! h1 = Some a ->
  heap w2 !! h2 = Some a ->
  well_formed a ->
  np_prod (shape a) < 2 ^ 31 ->
  scale_intensity_range acc1 (PyRef h1) b_max b_min a_max a_min clip w1
    = (Return r1, w1') ->
  scale_intensity_range acc2 (PyRef h2) b_max b_min a_max a_min clip w2
    = (Return r2, w2') ->
  is_Some (heap w1' !! r1) ∧ heap w1' !! r1 = heap w2' !! r2.
Proof.
  intros Hcast Hh1 Hh2 Hwf Hsmall Hrun1 Hrun2.
  destruct (returned_inv _ _ _ _ _ _ _ _ _ _ _ Hh1 Hrun1)
    as (_ & _ & inp1 & out1 & _ & _ & _ & _ & _ & _ & _ & _ & Hres1 & _).
  destruct (returned_inv _ _ _ _ _ _ _ _ _ _ _ Hh2 Hrun2)
    as (_ & _ & inp2 & out2 & _ & _ & _ & _ & _ & _ & _ & _ & Hres2 & _).
  cbn zeta in *. rewrite Hres1, Hres2. split; [done|]. do 2 f_equal.
  destruct (kernel_output_request acc1 a inp1 out1 b_max b_min a_max a_min
              clip Hwf Hsmall) as [Hlen1 Hlook1].
  destruct (kernel_output_request acc2 a inp2 out2 b_max b_min a_max a_min
              clip Hwf Hsmall) as [Hlen2 Hlook2].
  assert (Hk : kernel_output acc1 a
                 (request a inp1 out1 b_max b_min a_max a_min clip) =
               kernel_output acc2 a
                 (request a inp2 out2 b_max b_min a_max a_min clip)).
  { apply list_eq. intros i. by rewrite Hlook1, Hlook2. }
  unfold returned_data. rewrite Hk. case_bool_decide; [|done].
  apply map_ext. intros v. by apply astype_scalar_cast_undefined.
Qed.

Lemma result_independent_of_uninitialised_memory_witness :
  let w1 := world_of ramp32 in
  let w2 := world_at7 ramp32 in
  let run1 :=
    scale_intensity_range strict (PyRef 1%positive) (Float.of_Z 2)
      (Float.of_Z 0) (Float.of_Z 1) (Float.of_Z 0) false w1 in
  let run2 :=
    scale_intensity_range zeroing (PyRef 7%positive) (Float.of_Z 2)
      (Float.of_Z 0) (Float.of_Z 1) (Float.of_Z 0) false w2 in
  cast_undefined strict = cast_undefined zeroing ∧
  heap w1 !! 1%positive = Some ramp32 ∧
  heap w2 !! 7%positive = Some ramp32 ∧
  well_formed ramp32 ∧
  np_prod (shape ramp32) < 2 ^ 31 ∧
  run1 = (Return 2%positive, run1.2) ∧
  run2 = (Return 8%positive, run2.2) ∧
  heap run1.2 !! 2%positive = heap run2.2 !! 8%positive.
Proof.
  intros w1 w2 run1 run2.
  assert (H1 : cast_undefined strict = cast_undefined zeroing)
    by reflexivity.
  assert (H2 : heap w1 !! 1%positive = Some ramp32) by reflexivity.
  assert (H3 : heap w2 !! 7%positive = Some ramp32) by reflexivity.
  assert (H4 : well_formed ramp32) by reflexivity.
  assert (H5 : np_prod (shape ramp32) < 2 ^ 31) by reflexivity.
  assert (H6 : run1 = (Return 2%positive, run1.2)).
  { apply injective_projections; [vm_compute; reflexivity | reflexivity]. }
  assert (H7 : run2 = (Return 8%positive, run2.2)).
  { apply injective_projections; [vm_compute; reflexivity | reflexivity]. }
  split_and!; [exact H1 | exact H2 | exact H3 | exact H4 | exact H5
              | exact H6 | exact H7 |].
  exact (proj2 (result_independent_of_uninitialised_memory strict zeroing
                  w1 w2 1%positive 7%positive ramp32 (Float.of_Z 2)
                  (Float.of_Z 0) (Float.of_Z 1) (Float.of_Z 0) false
                  2%positive run1.2 8%positive run2.2
                  H1 H2 H3 H4 H5 H6 H7)).
Defined.

(** ** The element count beyond 32 bits *)

(** X8.  The element count is handed to the kernel as np.int32: for an
    accepted array of at least 2^31 and fewer than 2^32 elements, the
    count in the launch request is the number of elements minus 2^32, a
    negative number. *)
Theorem element_count_wraps_to_negative
    acc w h a b_max b_min a_max a_min clip :
  heap w !! h = Some a ->
  Float.eqb (Float.sub a_max a_min) Float.zero = false ->
  cls a = numpy_ndarray ∨ can_cast_float32 (dtype a) = true ->
  2 ^ 31 <= np_prod (shape a) < 2 ^ 32 ->
  let run :=
    scale_intensity_range acc (PyRef h) b_max b_min a_max a_min clip w in
  ∃ l, launches run.2 = launches w ++ [l] ∧
       arg_total_size l = np_prod (shape a) - 2 ^ 32 ∧
       arg_total_size l < 0.
Proof.
  intros Hh Hne Hok Hn run.
  destruct (run_on_array acc w h a b_max b_min a_max a_min clip Hh Hne Hok)
    as (r & w' & Hrun & inp & out & _ & _ & _ & _ & Hl & _).
  cbn zeta in Hl. unfold run. rewrite Hrun. cbn [snd].
  eexists. split; [exact Hl|]. cbn [request arg_total_size].
  unfold np_int32, wrap.
  replace (np_prod (shape a) + 2 ^ (32 - 1))
    with (np_prod (shape a) - 2 ^ 31 + 1 * 2 ^ 32) by lia.
  rewrite Z.mod_add, Z.mod_small by lia. lia.
Qed.

Lemma element_count_wraps_to_negative_witness :
  let w := world_of huge32 in
  heap w !! 1%positive = Some huge32 ∧
  Float.eqb (Float.sub (Float.of_Z 1) (Float.of_Z 0)) Float.zero = false ∧
  (cls huge32 = numpy_ndarray ∨ can_cast_float32 (dtype huge32) = true) ∧
  2 ^ 31 <= np_prod (shape huge32) < 2 ^ 32 ∧
  ∃ l, launches
         (scale_intensity_range strict img (Float.of_Z 2) (Float.of_Z 0)
            (Float.of_Z 1) (Float.of_Z 0) false w).2 = launches w ++ [l] ∧
       arg_total_size l < 0.
Proof.
  intros w.
  assert (H1 : heap w !! 1%positive = Some huge32) by reflexivity.
  assert (H2 : Float.eqb (Float.sub (Float.of_Z 1) (Float.of_Z 0))
                 Float.zero = false) by (vm_compute; reflexivity).
  assert (H3 : cls huge32 = numpy_ndarray ∨
               can_cast_float32 (dtype huge32) = true)
    by (right; reflexivity).
  assert (H4 : 2 ^ 31 <= np_prod (shape huge32) < 2 ^ 32)
    by (split; [discriminate | reflexivity]).
  split; [exact H1 |]. split; [exact H2 |]. split; [exact H3 |].
  split; [exact H4 |].
  destruct (element_count_wraps_to_negative strict w 1%positive huge32
              (Float.of_Z 2) (Float.of_Z 0) (Float.of_Z 1) (Float.of_Z 0)
              false H1 H2 H3 H4) as (l & Hl & _ & Hneg).
  exists l. split; [exact Hl | exact Hneg].
Defined.

(** ** A target range of one value *)

(** Rounding to nearest even is symmetric: the sign of the value is the
    sign of the result. *)
Lemma binary_round_aux_opp prec emax s m e l :
  binary_round_aux prec emax (negb s) m e l
    = SFopp (binary_round_aux prec emax s m e l).
Proof.
  unfold binary_round_aux.
  destruct (shr_fexp prec emax m e l) as [mrs' e'].
  destruct (shr_fexp prec emax _ e' loc_Exact) as [mrs'' e''].
  destruct (shr_m mrs''); try done. by destruct (_ <=? _).
Qed.

Lemma binary_round_opp prec emax s m e :
  binary_round prec emax (negb s) m e = SFopp (binary_round prec emax s m e).
Proof.
  unfold binary_round. destruct (shl_align m e _) as [mz ez].
  apply binary_round_aux_opp.
Qed.

Lemma SFltb_irrefl s m e :
  SFltb (S754_finite s m e) (S754_finite s m e) = false.
Proof.
  unfold SFltb. cbn [SFcompare]. rewrite Z.compare_refl.
  change (Pos.compare_cont Eq m m) with (m ?= m)%positive.
  rewrite Pos.compare_refl. by destruct s.
Qed.

(** The coefficients when the target range is the single finite value
    b: x is a zero and y is -b. *)
Lemma constant_coefficients a_max a_min sd md ed sb mb eb :
  Float.sub a_max a_min = S754_finite sd md ed ->
  let b := S754_finite sb mb eb in
  let x := Float.div (Float.sub b b) (Float.sub a_max a_min) in
  IEEE.is_zero x = true ∧
  Float.sub (Float.mul a_min x) b = S754_finite (negb sb) mb eb.
Proof.
  intros Hd b x.
  assert (Hfin : IEEE.is_finite a_min = true).
  { destruct a_max as [[]|[]| |[] ? ?], a_min as [[]|[]| |[] ? ?];
      try done; cbn in Hd; done. }
  unfold x. rewrite Hd, Float_sub_self by done.
  cbn [Float.div SFdiv xorb]. split; [done|].
  by destruct a_min as [[]| | |[] ? ?], sd.
Qed.

(** What a thread writes for a finite element when x is a zero and y is
    the opposite of a finite non-zero value: that value, when the bounds
    of the clamp are the value itself or the infinities. *)
Lemma written_constant x s m e clip v :
  IEEE.is_zero x = true ->
  IEEE.is_finite (float_of v) = true ->
  let b := S754_finite s m e in
  written x (SFopp b)
    (if negb clip then S754_infinity true else b)
    (if negb clip then S754_infinity false else b) v = SFloat b.
Proof.
  intros Hx Hv b. unfold written, scale_elem. f_equal.
  assert (Float32.sub (Float32.mul (float_of v) x) (SFopp b) = b) as ->.
  { destruct x as [sx| | |]; try done.
    destruct (float_of v) as [sv| | |sv mv ev]; try done;
      cbn [Float32.mul SFmul Float32.sub SFsub SFopp b];
      by rewrite negb_involutive. }
  destruct clip; cbn [negb]; [|apply clamp_unbounded].
  unfold clamp, Float32.ltb, b. by rewrite SFltb_irrefl.
Qed.

(** X9.  A target range of a single value is accepted (only the original
    range is checked) and gives a constant array: when b_max = b_min = b,
    b rounds to a finite non-zero binary32 value and a_max - a_min is
    finite and not zero, then for every well-formed array of finite
    binary32 values (fewer than 2^31 elements) every element of the
    returned array is float32(b), with clip or without. *)
Theorem single_valued_target_range_gives_constant_array
    acc w h a b a_max a_min clip r w' sd md ed s m e :
  heap w !! h = Some a ->
  dtype a = float32 ->
  forallb (well_typed float32) (data a) = true ->
  forallb (fun v => IEEE.is_finite (float_of v)) (data a) = true ->
  well_formed a ->
  np_prod (shape a) < 2 ^ 31 ->
  Float.sub a_max a_min = S754_finite sd md ed ->
  Float32.np_float32 b = S754_finite s m e ->
  scale_intensity_range acc (PyRef h) b b a_max a_min clip w
    = (Return r, w') ->
  ∃ res,
    heap w' !! r = Some res ∧
    data res = replicate (length (data a)) (SFloat (Float32.np_float32 b)).
Proof.
  intros Hh Hd Hty Hfin Hwf Hsmall Hsub Hb Hrun.
  destruct (returned_inv _ _ _ _ _ _ _ _ _ _ _ Hh Hrun)
    as (_ & _ & inp & out & _ & _ & _ & _ & _ & _ & _ & _ & Hres & _).
  cbn zeta in Hres.
  destruct (kernel_output_request acc a inp out b b a_max a_min clip
              Hwf Hsmall) as [Hlen Hlook].
  eexists. split; [exact Hres|]. cbn [data]. unfold returned_data.
  rewrite Hd, bool_decide_eq_false_2 by (intros H; by apply H).
  destruct b as [| | |sb mb eb]; try done.
  destruct (constant_coefficients a_max a_min sd md ed sb mb eb Hsub)
    as [Hx Hy]. cbn zeta in Hx, Hy.
  apply list_eq. intros i. rewrite Hlook.
  rewrite working_data_cast by by rewrite Hd.
  rewrite astype_float32_id by done.
  cbn [request arg_x arg_y arg_b_min arg_b_max]. rewrite Hy.
  set (x := Float.div _ _) in *.
  assert (Hx32 : IEEE.is_zero (Float32.np_float32 x) = true)
    by by destruct x.
  assert (Hy32 : Float32.np_float32 (S754_finite (negb sb) mb eb)
                 = SFopp (S754_finite s m e)).
  { unfold Float32.np_float32, IEEE.round in *.
    by rewrite binary_round_opp, Hb. }
  rewrite Hy32.
  assert (Hbounds : forall c : spec_float,
            Float32.np_float32
              (if negb clip then c else S754_finite sb mb eb)
            = if negb clip then Float32.np_float32 c else S754_finite s m e).
  { intros c. by destruct clip. }
  rewrite !Hbounds.
  change (Float32.np_float32 Float.neg_inf) with (S754_infinity true).
  change (Float32.np_float32 Float.inf) with (S754_infinity false).
  destruct (data a !! i) as [v|] eqn:Hv.
  - rewrite lookup_replicate_2 by by eapply lookup_lt_Some.
    cbn [fmap option_fmap option_map]. f_equal. rewrite Hb.
    apply (written_constant _ s m e clip v Hx32).
    rewrite forallb_forall in Hfin. apply Hfin.
    apply list_elem_of_In. by eapply list_elem_of_lookup_2.
  - cbn [fmap option_fmap option_map]. symmetry.
    apply lookup_replicate_None. by apply lookup_ge_None.
Qed.

Lemma single_valued_target_range_gives_constant_array_witness :
  let w := world_of ramp32 in
  let run :=
    scale_intensity_range strict img (Float.of_Z 5) (Float.of_Z 5)
      (Float.of_Z 1) (Float.of_Z 0) true w in
  heap w !! 1%positive = Some ramp32 ∧
  dtype ramp32 = float32 ∧
  forallb (well_typed float32) (data ramp32) = true ∧
  forallb (fun v => IEEE.is_finite (float_of v)) (data ramp32) = true ∧
  well_formed ramp32 ∧
  np_prod (shape ramp32) < 2 ^ 31 ∧
  Float.sub (Float.of_Z 1) (Float.of_Z 0)
    = S754_finite false 4503599627370496 (-52) ∧
  Float32.np_float32 (Float.of_Z 5) = S754_finite false 10485760 (-21) ∧
  run = (Return 2%positive, run.2) ∧
  ∃ res,
    heap run.2 !! 2%positive = Some res ∧
    data res =
      replicate (length (data ramp32))
        (SFloat (Float32.np_float32 (Float.of_Z 5))).
Proof.
  intros w run.
  assert (H1 : heap w !! 1%positive = Some ramp32) by reflexivity.
  assert (H2 : dtype ramp32 = float32) by reflexivity.
  assert (H3 : forallb (well_typed float32) (data ramp32) = true)
    by (vm_compute; reflexivity).
  assert (H4 : forallb (fun v => IEEE.is_finite (float_of v)) (data ramp32)
               = true) by (vm_compute; reflexivity).
  assert (H5 : well_formed ramp32) by reflexivity.
  assert (H6 : np_prod (shape ramp32) < 2 ^ 31) by reflexivity.
  assert (H7 : Float.sub (Float.of_Z 1) (Float.of_Z 0)
               = S754_finite false 4503599627370496 (-52))
    by (vm_compute; reflexivity).
  assert (H8 : Float32.np_float32 (Float.of_Z 5)
               = S754_finite false 10485760 (-21))
    by (vm_compute; reflexivity).
  assert (H9 : run = (Return 2%positive, run.2)).
  { apply injective_projections; [vm_compute; reflexivity | reflexivity]. }
  split_and!; [exact H1 | exact H2 | exact H3 | exact H4 | exact H5
              | exact H6 | exact H7 | exact H8 | exact H9 |].
  exact (single_valued_target_range_gives_constant_array strict w 1%positive
           ramp32 (Float.of_Z 5) (Float.of_Z 1) (Float.of_Z 0) true
           2%positive run.2 false 4503599627370496 (-52)
           false 10485760 (-21) H1 H2 H3 H4 H5 H6 H7 H8 H9).
Defined.

(** ** A range that is not a number *)

(** What a thread writes when x is NaN and no bound is in force: NaN,
    whatever the element. *)
Lemma written_nan y v :
  written S754_nan y (S754_infinity true) (S754_infinity false) v
    = SFloat S754_nan.
Proof.
  unfold written, scale_elem. f_equal. rewrite clamp_unbounded.
  assert (Float32.mul (float_of v) S754_nan = S754_nan) as ->
    by by destruct (float_of v).
  done.
Qed.

(** X10.  The range check only rejects a difference equal to zero: when
    a_max - a_min is NaN (one of them is NaN, or both are the same
    infinity) the call is not rejected, x is NaN, and with clip false a
    returning call on a well-formed array of binary32 values (fewer than
    2^31 elements) returns an array of NaN. *)
Theorem nan_range_gives_nan_array
    acc w h a b_max b_min a_max a_min r w' :
  heap w !! h = Some a ->
  dtype a = float32 ->
  well_formed a ->
  np_prod (shape a) < 2 ^ 31 ->
  IEEE.is_nan (Float.sub a_max a_min) = true ->
  scale_intensity_range acc (PyRef h) b_max b_min a_max a_min false w
    = (Return r, w') ->
  ∃ res,
    heap w' !! r = Some res ∧
    data res = replicate (length (data a)) (SFloat S754_nan).
Proof.
  intros Hh Hd Hwf Hsmall Hnan Hrun.
  destruct (returned_inv _ _ _ _ _ _ _ _ _ _ _ Hh Hrun)
    as (_ & _ & inp & out & _ & _ & _ & _ & _ & _ & _ & _ & Hres & _).
  cbn zeta in Hres.
  destruct (kernel_output_request acc a inp out b_max b_min a_max a_min false
              Hwf Hsmall) as [Hlen Hlook].
  eexists. split; [exact Hres|]. cbn [data]. unfold returned_data.
  rewrite Hd, bool_decide_eq_false_2 by (intros H; by apply H).
  apply list_eq. intros i. rewrite Hlook.
  cbn [request arg_x arg_y arg_b_min arg_b_max negb].
  destruct (Float.sub a_max a_min) as [| | |]; try done.
  assert (Float.div (Float.sub b_max b_min) S754_nan = S754_nan) as ->
    by by destruct (Float.sub b_max b_min).
  change (Float32.np_float32 S754_nan) with S754_nan.
  change (Float32.np_float32 Float.neg_inf) with (S754_infinity true).
  change (Float32.np_float32 Float.inf) with (S754_infinity false).
  destruct (working_data acc a !! i) as [v|] eqn:Hv;
    cbn [fmap option_fmap option_map].
  - rewrite written_nan. symmetry. apply lookup_replicate_2.
    rewrite <- (length_working_data acc). by eapply lookup_lt_Some.
  - symmetry. apply lookup_replicate_None.
    rewrite <- (length_working_data acc). by apply lookup_ge_None.
Qed.

Lemma nan_range_gives_nan_array_witness :
  let w := world_of ramp32 in
  let run :=
    scale_intensity_range strict img (Float.of_Z 1) (Float.of_Z 0)
      Float.inf Float.inf false w in
  heap w !! 1%positive = Some ramp32 ∧
  dtype ramp32 = float32 ∧
  well_formed ramp32 ∧
  np_prod (shape ramp32) < 2 ^ 31 ∧
  IEEE.is_nan (Float.sub Float.inf Float.inf) = true ∧
  run = (Return 2%positive, run.2) ∧
  ∃ res,
    heap run.2 !! 2%positive = Some res ∧
    data res = replicate (length (data ramp32)) (SFloat S754_nan).
Proof.
  intros w run.
  assert (H1 : heap w !! 1%positive = Some ramp32) by reflexivity.
  assert (H2 : dtype ramp32 = float32) by reflexivity.
  assert (H3 : well_formed ramp32) by reflexivity.
  assert (H4 : np_prod (shape ramp32) < 2 ^ 31) by reflexivity.
  assert (H5 : IEEE.is_nan (Float.sub Float.inf Float.inf) = true)
    by reflexivity.
  assert (H6 : run = (Return 2%positive, run.2)).
  { apply injective_projections; [vm_compute; reflexivity | reflexivity]. }
  split_and!; [exact H1 | exact H2 | exact H3 | exact H4 | exact H5
              | exact H6 |].
  exact (nan_range_gives_nan_array strict w 1%positive ramp32 (Float.of_Z 1)
           (Float.of_Z 0) Float.inf Float.inf 2%positive run.2
           H1 H2 H3 H4 H5 H6).
Defined.

(** ** The layout of the result *)

Lemma length_scaleVolume input x y lower upper n b B t out :
  length (scaleVolume input x y lower upper n b B t out) = length out.
Proof.
  unfold scaleVolume. destruct (_ <? _); [|done].
  destruct (input !! _); [|done]. by rewrite length_insert.
Qed.

Lemma foldl_invariant {A B} (P : A -> Prop) (f : A -> B -> A) l a :
  P a -> (forall x b, P x -> P (f x b)) -> P (foldl f a l).
Proof.
  intros Ha Hf. revert a Ha. induction l as [|b l IH]; intros a Ha; [done|].
  cbn [foldl]. by apply IH, Hf.
Qed.

Lemma length_run_grid G B thread out0 :
  (forall b t out, length (thread b B t out) = length out) ->
  length (run_grid G B thread out0) = length out0.
Proof.
  intros Hthread. unfold run_grid.
  apply (foldl_invariant (fun out => length out = length out0)); [done|].
  intros out b Hout.
  apply (foldl_invariant (fun o => length o = length out0)); [done|].
  intros o t Ho. by rewrite Hthread.
Qed.

Lemma length_kernel_output acc a l :
  length (kernel_output acc a l) = Z.to_nat (np_prod (shape a)).
Proof.
  unfold kernel_output. rewrite length_run_grid.
  - by rewrite length_map, length_seq.
  - intros. apply length_scaleVolume.
Qed.

(** X11.  Whatever the input array (contiguous or not, of any size and
    element type), the array a call returns is C-contiguous and holds
    exactly as many elements as its shape says. *)
Theorem returned_array_is_contiguous_and_full
    acc w h a b_max b_min a_max a_min clip r w' :
  heap w !! h = Some a ->
  scale_intensity_range acc (PyRef h) b_max b_min a_max a_min clip w
    = (Return r, w') ->
  ∃ res,
    heap w' !! r = Some res ∧
    c_contiguous res = true ∧
    length (data res) = Z.to_nat (np_prod (shape res)).
Proof.
  intros Hh Hrun.
  destruct (returned_inv _ _ _ _ _ _ _ _ _ _ _ Hh Hrun)
    as (_ & _ & inp & out & _ & _ & _ & _ & _ & _ & _ & _ & Hres & _).
  cbn zeta in Hres. eexists. split; [exact Hres|].
  cbn [c_contiguous data shape]. split; [done|].
  unfold returned_data. case_bool_decide; rewrite ?length_map;
    apply length_kernel_output.
Qed.

Lemma returned_array_is_contiguous_and_full_witness :
  let w := world_of strided32 in
  let run :=
    scale_intensity_range strict img (Float.of_Z 1) (Float.of_Z 0)
      (Float.of_Z 2) (Float.of_Z 0) true w in
  heap w !! 1%positive = Some strided32 ∧
  c_contiguous strided32 = false ∧
  run = (Return 3%positive, run.2) ∧
  ∃ res,
    heap run.2 !! 3%positive = Some res ∧
    c_contiguous res = true ∧
    length (data res) = Z.to_nat (np_prod (shape res)).
Proof.
  intros w run.
  assert (H1 : heap w !! 1%positive = Some strided32) by reflexivity.
  assert (H2 : run = (Return 3%positive, run.2)).
  { apply injective_projections; [vm_compute; reflexivity | reflexivity]. }
  split_and!; [exact H1 | reflexivity | exact H2 |].
  exact (returned_array_is_contiguous_and_full strict w 1%positive strided32
           (Float.of_Z 1) (Float.of_Z 0) (Float.of_Z 2) (Float.of_Z 0) true
           3%positive run.2 H1 H2).
Defined.
